(** * Fersch 3D quoting service: quote engine and STL volume extractor

    A shallow embedding of [backend/quote_engine.py],
    [backend/stl_volume.py] and the command line of [backend/main.py], with
    the properties of the specification stated and proved (or refuted) over
    it.

    Numbers.  A Python [float] is a binary64 number.  The embedding models
    it as a rational [Q] and keeps what the statements below rest on:

    - comparisons, and the order of the operations, are the code's: an
      equation written with [=] holds between two results of the same
      operations in the same order, and the inequalities proved are those
      that rounding to nearest keeps;
    - the two places where binary64 decides whether [compute_quote]
      returns are modelled: [float * int] raises [OverflowError] when the
      [int] does not fit a float, and a quotient that rounds to zero is
      zero, so that dividing by it raises [ZeroDivisionError];
    - everything else is exact: infinities and NaN are outside [Q], and
      equalities that hold only up to rounding are not claimed of the code.
      Where rounding decides a property of the extractor, the functions of
      [stl_volume.py] are also given over binary64 itself (module
      [Binary64], on Rocq's primitive floats) and evaluated.

    Python [int] is [Z]; [str] is [string]; [bytes] is [list byte];
    a [dict] keyed by strings is a [gmap string _]. *)

From Stdlib Require Import QArith Qabs Qminmax Lqa ZArith List String.
From Stdlib Require Import Strings.Byte.
From Stdlib Require Floats.PrimFloat.
From stdpp Require Import gmap strings.

Open Scope Q_scope.

(** ** Exceptions and results *)

Inductive exn : Type :=
| ValueError (msg : string)
| ZeroDivisionError
| OverflowError.

Inductive result (A : Type) : Type :=
| Ok (a : A)
| Raise (e : exn).
Arguments Ok {A} a.
Arguments Raise {A} e.

Definition bind {A B : Type} (r : result A) (k : A -> result B) : result B :=
  match r with
  | Ok a => k a
  | Raise e => Raise e
  end.

Notation "x <- r ;; k" := (bind r (fun x => k))
  (at level 100, r at next level, right associativity).

(** ** Float operations that can fail *)

(** The first integer that does not fit a float: [2^1024 - 2^970] and
    every larger integer round to [2^1024], beyond the largest binary64
    number. *)
Definition float_limit : Z := (2 ^ 1024 - 2 ^ 970)%Z.

(** The conversion of an [int] operand to a float: Python raises
    [OverflowError] ("int too large to convert to float") when the integer
    does not fit. *)
Definition float_of_int (n : Z) : result Q :=
  if (Z.abs n <? float_limit)%Z then Ok (inject_Z n) else Raise OverflowError.

(** [x * n] for a float [x] and an [int] [n]: the integer is converted
    first, whatever [x] is. *)
Definition py_mul_int (x : Q) (n : Z) : result Q :=
  y <- float_of_int n;;
  Ok (x * y).

(** Half of the smallest positive binary64 number, [2^-1075]: rounding to
    nearest (ties to even) takes a number to zero exactly when its
    magnitude is at most this. *)
Definition half_min_float : Q := 1 # (2 ^ 1075).

Definition rounds_to_zero (x : Q) : bool := Qle_bool (Qabs x) half_min_float.

(** The quotient of two floats: the exact quotient, and zero where
    binary64 rounds it to zero.  This is the part of the rounding that
    decides an outcome, a zero quotient raising once it is divided by. *)
Definition float_quotient (a b : Q) : Q :=
  if rounds_to_zero (a / b) then 0 else a / b.

(** Python's float division: [a / b] raises when [b] is zero. *)
Definition py_div (a b : Q) : result Q :=
  if Qeq_bool b 0 then Raise ZeroDivisionError else Ok (float_quotient a b).

(** ** quote_engine.py *)

Module QuoteEngine.

Record Material : Type := {
  mat_name : string;
  price_per_ml_with_loss : Q
}.

Record TypePiece : Type := {
  tp_name : string;
  factor : Q
}.

Record Typology : Type := {
  ty_name : string;
  bag_price : Q
}.

(** The attributes of a loaded [QuoteEngine] instance that [compute_quote]
    reads.  Loading from the workbook is not modelled: a value of this
    record is the engine after [__init__] has returned. *)
Record t : Type := {
  materials : gmap string Material;
  type_pieces : gmap string TypePiece;
  typologies : gmap string Typology;
  markup_table : list (Q * Q);        (* (ml_min, factor) *)
  packaging_table : list (Q * Q);     (* (ml_total_min, price) *)
  post_rate : Q;
  finish_rate : Q;
  tva_rate : Q;
  machine_hour_rate : Q;
  machine_time_per_ml : Q;
  shipping_retrait : Q;
  shipping_delivery : Q;
  material_support_percent : gmap string Q;
  material_print_speed : gmap string Q;  (* tenths of mm/s *)
  time_factor : Q
}.

(** The dictionary returned by [compute_quote]: its keys are fixed, so it
    is a record. *)
Record Breakdown : Type := {
  material_cost : Q;
  machine_cost : Q;
  base_cost : Q;
  post_cost : Q;
  finish_cost : Q;
  painting_cost : Q;
  total_cost_before_markup : Q;
  markup_factor : Q;
  price_ht_plate : Q;
  packaging_cost : Q;
  bag_cost : Q;
  shipping_cost : Q;
  total_ht : Q;
  vat : Q;
  total_ttc : Q;
  volume_with_supports_ml : Q;
  print_time_minutes : Q
}.

(** The loop shared by [_get_markup_factor] and [_get_packaging_cost]:
<<
    for ml_min, f in table:
        if volume_ml >= ml_min: factor = f
        else: break
>>
    [acc] is the current value of the local ([factor] or [price]). *)
Fixpoint tier_scan (table : list (Q * Q)) (volume_ml : Q) (acc : Q) : Q :=
  match table with
  | [] => acc
  | (ml_min, f) :: rest =>
      if Qle_bool ml_min volume_ml then tier_scan rest volume_ml f else acc
  end.

Definition _get_markup_factor (self : t) (volume_ml : Q) : Q :=
  tier_scan (markup_table self) volume_ml 1.

Definition _get_packaging_cost (self : t) (total_volume_ml : Q) : Q :=
  tier_scan (packaging_table self) total_volume_ml 0.

(** [quantity < 1 => quantity = 1] *)
Definition clamp_quantity (quantity : Z) : Z :=
  if (quantity <? 1)%Z then 1%Z else quantity.

(** The machine time in hours (lines 302-316).  The divisor of line 312
    is the quotient of line 310, which is zero when the stored speed is
    zero and also when a tenth of it rounds to zero. *)
Definition machine_time (self : t) (material_name : string)
    (largest_dimension_mm : option Q)
    (volume_with_supports : Q) (type_factor : Q) : result Q :=
  match largest_dimension_mm with
  | Some l =>
      let speed_tenth := material_print_speed self !! material_name in
      speed_mm_s <-
        match speed_tenth with
        | None => Ok 1
        | Some s => py_div s 10
        end;;
      time_seconds <- py_div (l * time_factor self) speed_mm_s;;
      py_div time_seconds 3600
  | None =>
      Ok (volume_with_supports * machine_time_per_ml self * type_factor)
  end.

(** [compute_quote].  The errors come in the order of the code: the
    unknown material (line 288), the conversion of the quantity at
    [volume_ml * quantity] (line 295), the division by the speed (line
    312); the conversion at [bag_price * quantity] (line 334) is that of
    the same quantity. *)
Definition compute_quote (self : t) (volume_ml : Q)
    (material_name type_piece_name typology_name : string)
    (quantity : Z) (shipping_method : string) (add_painting : bool)
    (largest_dimension_mm : option Q) : result Breakdown :=
  let quantity := clamp_quantity quantity in
  match materials self !! material_name with
  | None => Raise (ValueError ("Unknown material: " ++ material_name))
  | Some mat =>
      let type_factor :=
        factor (default {| tp_name := type_piece_name; factor := 1 |}
                        (type_pieces self !! type_piece_name)) in
      let bag_price :=
        bag_price (default {| ty_name := typology_name; bag_price := 0 |}
                           (typologies self !! typology_name)) in
      eff_volume_ml <- py_mul_int volume_ml quantity;;
      let support_percent :=
        default 0 (material_support_percent self !! material_name) in
      let volume_with_supports_ml :=
        eff_volume_ml * (1 + support_percent / 100) in
      let material_cost :=
        volume_with_supports_ml * price_per_ml_with_loss mat * type_factor in
      machine_time_hours <-
        machine_time self material_name largest_dimension_mm
                     volume_with_supports_ml type_factor;;
      let machine_cost := machine_time_hours * machine_hour_rate self in
      let base_cost := material_cost + machine_cost in
      let post_cost := base_cost * post_rate self in
      let finish_cost := base_cost * finish_rate self in
      let painting_cost := 0 in
      let painting_cost := if add_painting then 0 else painting_cost in
      let total_cost_before_markup :=
        base_cost + post_cost + finish_cost + painting_cost in
      let markup_factor := _get_markup_factor self eff_volume_ml in
      let price_ht_plate := total_cost_before_markup * markup_factor in
      let packaging_cost := _get_packaging_cost self eff_volume_ml in
      bag_cost <- py_mul_int bag_price quantity;;
      let shipping_cost :=
        if String.eqb shipping_method "retrait"
        then shipping_retrait self else shipping_delivery self in
      let total_ht :=
        price_ht_plate + packaging_cost + bag_cost + shipping_cost in
      let vat := total_ht * tva_rate self in
      let total_ttc := total_ht + vat in
      let print_time_minutes := machine_time_hours * 60 in
      Ok {| material_cost := material_cost;
            machine_cost := machine_cost;
            base_cost := base_cost;
            post_cost := post_cost;
            finish_cost := finish_cost;
            painting_cost := painting_cost;
            total_cost_before_markup := total_cost_before_markup;
            markup_factor := markup_factor;
            price_ht_plate := price_ht_plate;
            packaging_cost := packaging_cost;
            bag_cost := bag_cost;
            shipping_cost := shipping_cost;
            total_ht := total_ht;
            vat := vat;
            total_ttc := total_ttc;
            volume_with_supports_ml := volume_with_supports_ml;
            print_time_minutes := print_time_minutes |}
  end.

End QuoteEngine.

(** ** stl_volume.py *)

Module StlVolume.

Definition vertex : Type := Q * Q * Q.
Definition facet : Type := vertex * vertex * vertex.

Definition signed_tetrahedron_volume (v1 v2 v3 : vertex) : Q :=
  let '(x1, y1, z1) := v1 in
  let '(x2, y2, z2) := v2 in
  let '(x3, y3, z3) := v3 in
  (* cross product v2 x v3 *)
  let cx := y2 * z3 - z2 * y3 in
  let cy := z2 * x3 - x2 * z3 in
  let cz := x2 * y3 - y2 * x3 in
  (* dot product v1 . (v2 x v3) *)
  let dot := x1 * cx + y1 * cy + z1 * cz in
  dot / 6.

(** The running bounding box.  The code starts the minima at [inf] and the
    maxima at [-inf]; a bound that no vertex has touched yet is [None]. *)
Record bounds : Type := {
  min_x : option Q; min_y : option Q; min_z : option Q;
  max_x : option Q; max_y : option Q; max_z : option Q
}.

(** [min(m, x)]: Python returns [x] only when [x < m]. *)
Definition py_min (m : option Q) (x : Q) : option Q :=
  match m with
  | None => Some x
  | Some a => Some (if Qle_bool a x then a else x)
  end.

(** [max(m, x)]: Python returns [x] only when [x > m]. *)
Definition py_max (m : option Q) (x : Q) : option Q :=
  match m with
  | None => Some x
  | Some a => Some (if Qle_bool x a then a else x)
  end.

Definition update_bounds (b : bounds) (v : vertex) : bounds :=
  let '(x, y, z) := v in
  {| min_x := py_min (min_x b) x;
     min_y := py_min (min_y b) y;
     min_z := py_min (min_z b) z;
     max_x := py_max (max_x b) x;
     max_y := py_max (max_y b) y;
     max_z := py_max (max_z b) z |}.

(** The locals of [compute_volume_and_bbox] that the loops update. *)
Record state : Type := {
  total_volume_mm3 : Q;
  bbox : bounds
}.

Definition init_state : state :=
  {| total_volume_mm3 := 0;
     bbox := {| min_x := None; min_y := None; min_z := None;
                max_x := None; max_y := None; max_z := None |} |}.

Definition see_vertex (st : state) (v : vertex) : state :=
  {| total_volume_mm3 := total_volume_mm3 st;
     bbox := update_bounds (bbox st) v |}.

Definition add_volume (st : state) (dv : Q) : state :=
  {| total_volume_mm3 := total_volume_mm3 st + dv;
     bbox := bbox st |}.

(** The text branch: the loop over the vertices that
    [parse_ascii_vertices] yields; [vertices] is the pending group. *)
Fixpoint ascii_loop (vs : list vertex) (st : state) (vertices : list vertex)
    : state :=
  match vs with
  | [] => st
  | v :: rest =>
      let st := see_vertex st v in
      let vertices := vertices ++ [v] in
      if (length vertices =? 3)%nat then
        match vertices with
        | [v1; v2; v3] =>
            ascii_loop rest
              (add_volume st (signed_tetrahedron_volume v1 v2 v3)) []
        | _ => st
        end
      else ascii_loop rest st vertices
  end.

(** The binary branch: the loop over the facets that
    [parse_binary_facets] yields, left by [break] once [count] reaches
    [num_triangles]. *)
Fixpoint binary_loop (num_triangles : Z) (facets : list facet) (st : state)
    (count : Z) : state :=
  match facets with
  | [] => st
  | (v1, v2, v3) :: rest =>
      let st := see_vertex (see_vertex (see_vertex st v1) v2) v3 in
      let st := add_volume st (signed_tetrahedron_volume v1 v2 v3) in
      let count := (count + 1)%Z in
      if (num_triangles <=? count)%Z then st
      else binary_loop num_triangles rest st count
  end.

(** [max - min if max > min else 0.0] *)
Definition extent (mx mn : option Q) : Q :=
  match mx, mn with
  | Some a, Some b => if Qle_bool a b then 0 else a - b
  | _, _ => 0
  end.

Fixpoint insert_desc (x : Q) (l : list Q) : list Q :=
  match l with
  | [] => [x]
  | y :: l' => if Qle_bool y x then x :: l else y :: insert_desc x l'
  end.

(** [sorted(l, reverse=True)] *)
Definition sorted_desc (l : list Q) : list Q :=
  fold_right insert_desc [] l.

(** Lines 171-178: from the accumulated state to the returned pair. *)
Definition finish (st : state) : Q * (Q * Q * Q) :=
  let volume_ml := Qabs (total_volume_mm3 st) / 1000 in
  let b := bbox st in
  let length := extent (max_x b) (min_x b) in
  let width := extent (max_y b) (min_y b) in
  let height := extent (max_z b) (min_z b) in
  let dims := sorted_desc [length; width; height] in
  (volume_ml, (nth 0 dims 0, nth 1 dims 0, nth 2 dims 0)).

Definition extract_ascii (vs : list vertex) : Q * (Q * Q * Q) :=
  finish (ascii_loop vs init_state []).

Definition extract_binary (num_triangles : Z) (facets : list facet)
    : Q * (Q * Q * Q) :=
  finish (binary_loop num_triangles facets init_state 0).

(** *** Bytes *)

(** [bytes.lower()] on one byte: only ASCII [A]-[Z] change. *)
Definition byte_lower (b : byte) : byte :=
  match b with
  | x41 => x61 | x42 => x62 | x43 => x63 | x44 => x64 | x45 => x65
  | x46 => x66 | x47 => x67 | x48 => x68 | x49 => x69 | x4a => x6a
  | x4b => x6b | x4c => x6c | x4d => x6d | x4e => x6e | x4f => x6f
  | x50 => x70 | x51 => x71 | x52 => x72 | x53 => x73 | x54 => x74
  | x55 => x75 | x56 => x76 | x57 => x77 | x58 => x78 | x59 => x79
  | x5a => x7a
  | _ => b
  end.

Fixpoint bytes_eqb (a b : list byte) : bool :=
  match a, b with
  | [], [] => true
  | x :: a', y :: b' => Byte.eqb x y && bytes_eqb a' b'
  | _, _ => false
  end.

Fixpoint starts_with (needle hay : list byte) : bool :=
  match needle, hay with
  | [], _ => true
  | x :: needle', y :: hay' => Byte.eqb x y && starts_with needle' hay'
  | _ :: _, [] => false
  end.

(** [needle in hay] on bytes: a contiguous occurrence. *)
Fixpoint bytes_in (needle hay : list byte) : bool :=
  starts_with needle hay ||
  match hay with
  | [] => false
  | _ :: hay' => bytes_in needle hay'
  end.

(** [data[i:j]] for [0 <= i <= j]. *)
Definition slice (i j : nat) (data : list byte) : list byte :=
  firstn (j - i) (skipn i data).

Definition solid : list byte := list_byte_of_string "solid".
Definition facet_token : list byte := list_byte_of_string "facet".

(** [data[:5].lower() == b"solid" and b"facet" in data[:200]] *)
Definition is_ascii (data : list byte) : bool :=
  bytes_eqb (map byte_lower (slice 0 5 data)) solid
  && bytes_in facet_token (slice 0 200 data).

(** [struct.unpack("<I", bs)[0]] on four bytes. *)
Definition unpack_u32_le (bs : list byte) : Z :=
  fold_right (fun b acc => (Z.of_N (Byte.to_N b) + 256 * acc)%Z) 0%Z bs.

Section Extractor.

(** Library code taken as parameters: [unpack_f32] is
    [struct.unpack("<f", bs)[0]] on four bytes, read as a rational;
    [text_vertices] is the vertex stream
    [parse_ascii_vertices(data.decode("utf-8", errors="ignore").splitlines())],
    whose tokenising rests on Python's [str] methods and [float]. *)
Variable unpack_f32 : list byte -> Q.
Variable text_vertices : list byte -> list vertex.

(** [struct.unpack("<3f", bs)] on twelve bytes. *)
Definition unpack_3f (bs : list byte) : vertex :=
  (unpack_f32 (slice 0 4 bs), unpack_f32 (slice 4 8 bs),
   unpack_f32 (slice 8 12 bs)).

Definition facet_size : nat := 50.

(** [range(0, n, facet_size)] *)
Definition chunk_offsets (n : nat) : list nat :=
  map (fun k => (k * facet_size)%nat)
      (seq 0 ((n + (facet_size - 1)) / facet_size)).

Fixpoint facets_at (offsets : list nat) (data : list byte) : list facet :=
  match offsets with
  | [] => []
  | i :: rest =>
      let chunk := slice i (i + facet_size) data in
      if (length chunk <? facet_size)%nat then []
      else
        let v1 := unpack_3f (slice 12 24 chunk) in
        let v2 := unpack_3f (slice 24 36 chunk) in
        let v3 := unpack_3f (slice 36 48 chunk) in
        (v1, v2, v3) :: facets_at rest data
  end.

Definition parse_binary_facets (data : list byte) : list facet :=
  facets_at (chunk_offsets (length data)) data.

(** The binary branch of [compute_volume_and_bbox] (lines 152-170). *)
Definition binary_branch (data : list byte) : Q * (Q * Q * Q) :=
  if (length data <? 84)%nat then (0, (0, 0, 0))
  else
    let num_triangles := unpack_u32_le (slice 80 84 data) in
    let facets_data := skipn 84 data in
    extract_binary num_triangles (parse_binary_facets facets_data).

(** The text branch (lines 135-150). *)
Definition text_branch (data : list byte) : Q * (Q * Q * Q) :=
  extract_ascii (text_vertices data).

(** [compute_volume_and_bbox], from the bytes that [path.read_bytes()]
    returned. *)
Definition compute_volume_and_bbox (data : list byte) : Q * (Q * Q * Q) :=
  if is_ascii data then text_branch data else binary_branch data.

End Extractor.

End StlVolume.

(** ** stl_volume.py over binary64

    The functions of [StlVolume] once more, over Rocq's primitive floats:
    binary64 with rounding to nearest, ties to even, infinities and NaN,
    which is Python's [float].  The operations and their order are those
    of the code; the module is evaluated on concrete facets. *)

Module Binary64.

Import PrimFloat.
Local Open Scope float_scope.

Definition vertex : Type := float * float * float.
Definition facet : Type := vertex * vertex * vertex.

Definition signed_tetrahedron_volume (v1 v2 v3 : vertex) : float :=
  let '(x1, y1, z1) := v1 in
  let '(x2, y2, z2) := v2 in
  let '(x3, y3, z3) := v3 in
  (* cross product v2 x v3 *)
  let cx := y2 * z3 - z2 * y3 in
  let cy := z2 * x3 - x2 * z3 in
  let cz := x2 * y3 - y2 * x3 in
  (* dot product v1 . (v2 x v3) *)
  let dot := x1 * cx + y1 * cy + z1 * cz in
  dot / 6.

Record bounds : Type := {
  min_x : float; min_y : float; min_z : float;
  max_x : float; max_y : float; max_z : float
}.

(** [min(m, x)]: Python returns [x] only when [x < m]. *)
Definition py_min (m x : float) : float := if x <? m then x else m.

(** [max(m, x)]: Python returns [x] only when [x > m]. *)
Definition py_max (m x : float) : float := if m <? x then x else m.

Definition update_bounds (b : bounds) (v : vertex) : bounds :=
  let '(x, y, z) := v in
  {| min_x := py_min (min_x b) x;
     min_y := py_min (min_y b) y;
     min_z := py_min (min_z b) z;
     max_x := py_max (max_x b) x;
     max_y := py_max (max_y b) y;
     max_z := py_max (max_z b) z |}.

Record state : Type := {
  total_volume_mm3 : float;
  bbox : bounds
}.

Definition init_state : state :=
  {| total_volume_mm3 := 0;
     bbox := {| min_x := infinity; min_y := infinity; min_z := infinity;
                max_x := neg_infinity; max_y := neg_infinity;
                max_z := neg_infinity |} |}.

Definition see_vertex (st : state) (v : vertex) : state :=
  {| total_volume_mm3 := total_volume_mm3 st;
     bbox := update_bounds (bbox st) v |}.

Definition add_volume (st : state) (dv : float) : state :=
  {| total_volume_mm3 := total_volume_mm3 st + dv;
     bbox := bbox st |}.

Fixpoint ascii_loop (vs : list vertex) (st : state) (vertices : list vertex)
    : state :=
  match vs with
  | [] => st
  | v :: rest =>
      let st := see_vertex st v in
      let vertices := vertices ++ [v] in
      if (length vertices =? 3)%nat then
        match vertices with
        | [v1; v2; v3] =>
            ascii_loop rest
              (add_volume st (signed_tetrahedron_volume v1 v2 v3)) []
        | _ => st
        end
      else ascii_loop rest st vertices
  end.

Fixpoint binary_loop (num_triangles : Z) (facets : list facet) (st : state)
    (count : Z) : state :=
  match facets with
  | [] => st
  | (v1, v2, v3) :: rest =>
      let st := see_vertex (see_vertex (see_vertex st v1) v2) v3 in
      let st := add_volume st (signed_tetrahedron_volume v1 v2 v3) in
      let count := (count + 1)%Z in
      if (num_triangles <=? count)%Z then st
      else binary_loop num_triangles rest st count
  end.

(** [max - min if max > min else 0.0] *)
Definition extent (mx mn : float) : float :=
  if mn <? mx then mx - mn else 0.

Fixpoint insert_desc (x : float) (l : list float) : list float :=
  match l with
  | [] => [x]
  | y :: l' => if y <=? x then x :: l else y :: insert_desc x l'
  end.

(** [sorted(l, reverse=True)] *)
Definition sorted_desc (l : list float) : list float :=
  fold_right insert_desc [] l.

Definition finish (st : state) : float * (float * float * float) :=
  let volume_ml := abs (total_volume_mm3 st) / 1000 in
  let b := bbox st in
  let length := extent (max_x b) (min_x b) in
  let width := extent (max_y b) (min_y b) in
  let height := extent (max_z b) (min_z b) in
  let dims := sorted_desc [length; width; height] in
  (volume_ml, (nth 0 dims 0, nth 1 dims 0, nth 2 dims 0)).

Definition extract_ascii (vs : list vertex) : float * (float * float * float) :=
  finish (ascii_loop vs init_state []).

Definition extract_binary (num_triangles : Z) (facets : list facet)
    : float * (float * float * float) :=
  finish (binary_loop num_triangles facets init_state 0).

End Binary64.

(** ** quote_engine.py: the end of [_load_parameters] and of [__init__] *)

Module Loading.

Import QuoteEngine.

(** [table.sort(key=lambda x: x[0])].  Python's sort is stable: an element
    stays before a later one unless the later key is smaller.  The model
    inserts each element, from the last to the first, before the first
    element whose threshold is not smaller. *)
Fixpoint insert_by_threshold (x : Q * Q) (l : list (Q * Q)) : list (Q * Q) :=
  match l with
  | [] => [x]
  | y :: l' =>
      if Qle_bool (fst x) (fst y) then x :: l
      else y :: insert_by_threshold x l'
  end.

Definition sort_by_threshold (table : list (Q * Q)) : list (Q * Q) :=
  fold_right insert_by_threshold [] table.

(** Lines 229-231: both tables are sorted once they are read. *)
Definition sort_tables (self : t) : t :=
  {| materials := materials self;
     type_pieces := type_pieces self;
     typologies := typologies self;
     markup_table := sort_by_threshold (markup_table self);
     packaging_table := sort_by_threshold (packaging_table self);
     post_rate := post_rate self;
     finish_rate := finish_rate self;
     tva_rate := tva_rate self;
     machine_hour_rate := machine_hour_rate self;
     machine_time_per_ml := machine_time_per_ml self;
     shipping_retrait := shipping_retrait self;
     shipping_delivery := shipping_delivery self;
     material_support_percent := material_support_percent self;
     material_print_speed := material_print_speed self;
     time_factor := time_factor self |}.

Section Init.

(** The process environment, and [float] on a string ([None] when it
    raises [ValueError]). *)
Variable getenv : string -> option string.
Variable py_float : string -> option Q.

(** [os.getenv(name, fallback)] *)
Definition os_getenv (name fallback : string) : string :=
  match getenv name with
  | Some value => value
  | None => fallback
  end.

(** [try: x = float(s)  except ValueError: x = fallback] *)
Definition float_or (s : string) (fallback : Q) : Q :=
  match py_float s with
  | Some x => x
  | None => fallback
  end.

(** [d.setdefault(k, v)] *)
Definition setdefault (k : string) (v : Q) (d : gmap string Q)
    : gmap string Q :=
  match d !! k with
  | Some _ => d
  | None => <[ k := v ]> d
  end.

(** Lines 89-106 of [__init__], from the engine that [_load_parameters]
    has filled: the defaults of the environment, given to every material
    that has no value of its own. *)
Definition apply_env_defaults (self : t) : t :=
  let default_support :=
    float_or (os_getenv "DEFAULT_SUPPORT_PERCENT" "0") 0 in
  let default_speed := float_or (os_getenv "DEFAULT_PRINT_SPEED" "10") 10 in
  let time_factor := float_or (os_getenv "TIME_FACTOR" "1") 1 in
  let '(support, speed) :=
    map_fold
      (fun mat_name _ dicts =>
         (setdefault mat_name default_support (fst dicts),
          setdefault mat_name default_speed (snd dicts)))
      (material_support_percent self, material_print_speed self)
      (materials self) in
  {| materials := materials self;
     type_pieces := type_pieces self;
     typologies := typologies self;
     markup_table := markup_table self;
     packaging_table := packaging_table self;
     post_rate := post_rate self;
     finish_rate := finish_rate self;
     tva_rate := tva_rate self;
     machine_hour_rate := machine_hour_rate self;
     machine_time_per_ml := machine_time_per_ml self;
     shipping_retrait := shipping_retrait self;
     shipping_delivery := shipping_delivery self;
     material_support_percent := support;
     material_print_speed := speed;
     time_factor := time_factor |}.

End Init.

End Loading.

(** ** stl_volume.py: [parse_ascii_vertices] *)

Module StlText.

Import StlVolume.

Section Parse.

(** Python's [str] and the methods the parser calls on it are library
    code, taken as parameters: [vertex_word] is the literal ["vertex"],
    [split] is [str.split()] and [py_float] is [float], [None] when it
    raises [ValueError]. *)
Variable str : Type.
Variable strip : str -> str.
Variable lower : str -> str.
Variable startswith : str -> str -> bool.
Variable split : str -> list str.
Variable py_float : str -> option Q.
Variable vertex_word : str.

(** [float(parts[1]), float(parts[2]), float(parts[3])] inside the [try]:
    [None] stands for the [IndexError] or [ValueError] that the [except]
    clause absorbs. *)
Definition vertex_of_parts (parts : list str) : option vertex :=
  match nth_error parts 1 with
  | None => None
  | Some p1 =>
      match py_float p1 with
      | None => None
      | Some x =>
          match nth_error parts 2 with
          | None => None
          | Some p2 =>
              match py_float p2 with
              | None => None
              | Some y =>
                  match nth_error parts 3 with
                  | None => None
                  | Some p3 =>
                      match py_float p3 with
                      | None => None
                      | Some z => Some (x, y, z)
                      end
                  end
              end
          end
      end
  end.

(** The generator, as the list of the vertices it yields. *)
Fixpoint parse_ascii_vertices (lines : list str) : list vertex :=
  match lines with
  | [] => []
  | line :: rest =>
      let line := strip line in
      if startswith (lower line) vertex_word then
        let parts := split line in
        match vertex_of_parts parts with
        | Some v => v :: parse_ascii_vertices rest
        | None => parse_ascii_vertices rest
        end
      else parse_ascii_vertices rest
  end.

(** [data.decode("utf-8", errors="ignore").splitlines()], library code. *)
Variable decode_splitlines : list byte -> list str.

(** The vertex stream of the text branch (lines 135-137). *)
Definition ascii_vertices (data : list byte) : list vertex :=
  parse_ascii_vertices (decode_splitlines data).

End Parse.

End StlText.

(** ** main.py: [cli] *)

Module Main.

Import QuoteEngine.
Import StlVolume.

Section Cli.

Variable unpack_f32 : list byte -> Q.
Variable text_vertices : list byte -> list vertex.

(** [cli], from the bytes of the file [args.stl] and the arguments; the
    value is the dictionary that is printed: the volume, the largest
    dimension and the breakdown.  [dims] is a tuple of three numbers, so
    [dims[0] if dims else None] is [dims[0]]. *)
Definition cli (engine : QuoteEngine.t) (stl : list byte)
    (material type_piece typology : string) (quantity : Z)
    (shipping : string) : result (Q * option Q * Breakdown) :=
  let '(volume, dims) := compute_volume_and_bbox unpack_f32 text_vertices stl in
  let largest_dim := Some (fst (fst dims)) in
  quote <- compute_quote engine volume material type_piece typology
                         quantity shipping false largest_dim ;;
  Ok (volume, largest_dim, quote).

End Cli.

End Main.

(** * Vocabulary of the statements *)

From Stdlib Require Import Sorted.

Import QuoteEngine.
Import StlVolume.

(** ** Tier tables *)

(** Ascending by threshold, as [list.sort(key=lambda x: x[0])] leaves a
    table: equal thresholds may repeat. *)
Definition by_threshold (a b : Q * Q) : Prop := fst a <= fst b.
Definition sorted_ascending (table : list (Q * Q)) : Prop :=
  Sorted by_threshold table.

Definition strictly_by_threshold (a b : Q * Q) : Prop := fst a < fst b.
Definition strictly_ascending (table : list (Q * Q)) : Prop :=
  Sorted strictly_by_threshold table.

(** [(t, x)] is a tier of [table] whose threshold is the highest one that
    does not exceed [v]. *)
Definition highest_tier_le (table : list (Q * Q)) (v t x : Q) : Prop :=
  In (t, x) table /\ t <= v /\
  forall t' x', In (t', x') table -> t' <= v -> t' <= t.

(** What the specification asks of a step lookup [lookup] over [table]
    with default [dflt]. *)
Definition step_function_of (table : list (Q * Q)) (dflt : Q)
    (lookup : Q -> Q) : Prop :=
  forall v : Q,
    ((forall t x, In (t, x) table -> v < t) -> lookup v = dflt) /\
    (forall t x, In (t, x) table -> t <= v ->
       exists t0, highest_tier_le table v t0 (lookup v)) /\
    (forall t x, In (t, x) table -> t == v ->
       exists t0, t0 == v /\ In (t0, lookup v) table) /\
    (strictly_ascending table ->
       forall t x, In (t, x) table -> t == v -> lookup v = x).

(** ** Engines of the examples *)

(** The engine of the end-to-end scenarios: one resin at 0.50 per ml, no
    supports, the default print speed of 10 tenths of mm/s, and the markup
    table [(0, 1.0), (50, 1.2)]. *)
Definition scenario_engine : QuoteEngine.t :=
  {| materials :=
       <[ "Resin"%string :=
            {| mat_name := "Resin"; price_per_ml_with_loss := 0.5 |} ]> ∅;
     type_pieces :=
       <[ "Standard"%string := {| tp_name := "Standard"; factor := 1 |} ]> ∅;
     typologies :=
       <[ "Fragile"%string :=
            {| ty_name := "Fragile"; bag_price := 1.5 |} ]> ∅;
     markup_table := [(0, 1); (50, 1.2)];
     packaging_table := [(0, 2); (100, 4)];
     post_rate := 0.25;
     finish_rate := 0.125;
     tva_rate := 0.2;
     machine_hour_rate := 7;
     machine_time_per_ml := 0.0625;
     shipping_retrait := 0;
     shipping_delivery := 12;
     material_support_percent := <[ "Resin"%string := 0 ]> ∅;
     material_print_speed := <[ "Resin"%string := 10 ]> ∅;
     time_factor := 1 |}.

(** The same engine started with [DEFAULT_PRINT_SPEED=0]: [__init__] then
    stores speed 0 for every material. *)
Definition zero_speed_engine : QuoteEngine.t :=
  {| materials := materials scenario_engine;
     type_pieces := type_pieces scenario_engine;
     typologies := typologies scenario_engine;
     markup_table := markup_table scenario_engine;
     packaging_table := packaging_table scenario_engine;
     post_rate := post_rate scenario_engine;
     finish_rate := finish_rate scenario_engine;
     tva_rate := tva_rate scenario_engine;
     machine_hour_rate := machine_hour_rate scenario_engine;
     machine_time_per_ml := machine_time_per_ml scenario_engine;
     shipping_retrait := shipping_retrait scenario_engine;
     shipping_delivery := shipping_delivery scenario_engine;
     material_support_percent := material_support_percent scenario_engine;
     material_print_speed := <[ "Resin"%string := 0 ]> ∅;
     time_factor := time_factor scenario_engine |}.

(** The same engine with the smallest positive float, [2^-1074], as the
    speed of the material: a speed that is not zero. *)
Definition tiny_speed_engine : QuoteEngine.t :=
  {| materials := materials scenario_engine;
     type_pieces := type_pieces scenario_engine;
     typologies := typologies scenario_engine;
     markup_table := markup_table scenario_engine;
     packaging_table := packaging_table scenario_engine;
     post_rate := post_rate scenario_engine;
     finish_rate := finish_rate scenario_engine;
     tva_rate := tva_rate scenario_engine;
     machine_hour_rate := machine_hour_rate scenario_engine;
     machine_time_per_ml := machine_time_per_ml scenario_engine;
     shipping_retrait := shipping_retrait scenario_engine;
     shipping_delivery := shipping_delivery scenario_engine;
     material_support_percent := material_support_percent scenario_engine;
     material_print_speed := <[ "Resin"%string := 1 # 2 ^ 1074 ]> ∅;
     time_factor := time_factor scenario_engine |}.

(** Stored speeds in binary64: the smallest positive float, [2^-1074],
    five times and six times it, and the division of line 310. *)
Module Speeds64.

Import PrimFloat.
Local Open Scope float_scope.

Definition min_float : float := 0x1p-1074.
Definition five_min_float : float := 5 * min_float.
Definition six_min_float : float := 6 * min_float.

(** [speed_mm_s = speed_tenth / 10.0] *)
Definition speed_mm_s (speed_tenth : float) : float := speed_tenth / 10.

End Speeds64.

(** A volume discount: the markup factor drops from 2 to 0.5 at 50 ml.
    Every number of this engine is non-negative. *)
Definition discount_engine : QuoteEngine.t :=
  {| materials :=
       <[ "Resin"%string :=
            {| mat_name := "Resin"; price_per_ml_with_loss := 1 |} ]> ∅;
     type_pieces := type_pieces scenario_engine;
     typologies := typologies scenario_engine;
     markup_table := [(0, 2); (50, 0.5)];
     packaging_table := [];
     post_rate := 0;
     finish_rate := 0;
     tva_rate := 0;
     machine_hour_rate := 7;
     machine_time_per_ml := 0;
     shipping_retrait := 0;
     shipping_delivery := 12;
     material_support_percent := <[ "Resin"%string := 0 ]> ∅;
     material_print_speed := <[ "Resin"%string := 10 ]> ∅;
     time_factor := 1 |}.

(** An engine whose markup factors rise with the volume. *)
Definition surcharge_engine : QuoteEngine.t :=
  {| materials := materials discount_engine;
     type_pieces := type_pieces discount_engine;
     typologies := typologies discount_engine;
     markup_table := [(0, 1); (50, 2)];
     packaging_table := [];
     post_rate := 0;
     finish_rate := 0;
     tva_rate := 0;
     machine_hour_rate := 7;
     machine_time_per_ml := 0;
     shipping_retrait := 0;
     shipping_delivery := 12;
     material_support_percent := material_support_percent discount_engine;
     material_print_speed := material_print_speed discount_engine;
     time_factor := 1 |}.

(** ** Outcomes of [compute_quote] *)

(** Names for the quantities the statements below speak of. *)
Definition type_factor_of (self : QuoteEngine.t) (type_piece_name : string)
    : Q :=
  match type_pieces self !! type_piece_name with
  | Some tp => factor tp
  | None => 1
  end.

Definition bag_price_of (self : QuoteEngine.t) (typology_name : string) : Q :=
  match typologies self !! typology_name with
  | Some ty => bag_price ty
  | None => 0
  end.

Definition support_percent_of (self : QuoteEngine.t)
    (material_name : string) : Q :=
  match material_support_percent self !! material_name with
  | Some p => p
  | None => 0
  end.

(** The clamped quantity fits a float: [volume_ml * quantity] and
    [bag_price * quantity] do not raise [OverflowError]. *)
Definition quantity_fits (quantity : Z) : Prop :=
  (Z.max quantity 1 < float_limit)%Z.

(** The dimension path divides by zero: a largest dimension is given and
    the speed stored for the material, divided by 10, is zero: the stored
    speed is zero, or so small that a tenth of it rounds to zero. *)
Definition zero_speed (self : QuoteEngine.t) (material_name : string)
    (largest_dimension_mm : option Q) : Prop :=
  exists l s, largest_dimension_mm = Some l /\
              material_print_speed self !! material_name = Some s /\
              rounds_to_zero (s / 10) = true.

(** The dimension path, if taken, divides by a speed that is not zero. *)
Definition speed_usable (self : QuoteEngine.t) (material_name : string)
    (largest_dimension_mm : option Q) : Prop :=
  forall l s, largest_dimension_mm = Some l ->
              material_print_speed self !! material_name = Some s ->
              rounds_to_zero (s / 10) = false.

(** The equations that tie the fields of a returned breakdown [b] to the
    inputs, the material record [mat] and the machine time [hours]. *)
Definition quote_fields (self : QuoteEngine.t) (mat : Material)
    (volume_ml : Q)
    (material_name type_piece_name typology_name : string) (quantity : Z)
    (shipping_method : string) (hours : Q) (b : Breakdown) : Prop :=
  let n := inject_Z (clamp_quantity quantity) in
  let eff_volume_ml := volume_ml * n in
  volume_with_supports_ml b
    = eff_volume_ml * (1 + support_percent_of self material_name / 100)
  /\ material_cost b
    = volume_with_supports_ml b * price_per_ml_with_loss mat
      * type_factor_of self type_piece_name
  /\ machine_cost b = hours * machine_hour_rate self
  /\ base_cost b = material_cost b + machine_cost b
  /\ post_cost b = base_cost b * post_rate self
  /\ finish_cost b = base_cost b * finish_rate self
  /\ painting_cost b = 0
  /\ total_cost_before_markup b
    = base_cost b + post_cost b + finish_cost b + painting_cost b
  /\ markup_factor b = _get_markup_factor self eff_volume_ml
  /\ price_ht_plate b = total_cost_before_markup b * markup_factor b
  /\ packaging_cost b = _get_packaging_cost self eff_volume_ml
  /\ bag_cost b = bag_price_of self typology_name * n
  /\ shipping_cost b
    = (if String.eqb shipping_method "retrait"
       then shipping_retrait self else shipping_delivery self)
  /\ total_ht b
    = price_ht_plate b + packaging_cost b + bag_cost b + shipping_cost b
  /\ vat b = total_ht b * tva_rate self
  /\ total_ttc b = total_ht b + vat b
  /\ print_time_minutes b = hours * 60.

(** The outcome of a call, as the code decides it: an unknown material
    raises; otherwise a quantity that does not fit a float raises;
    otherwise the machine time is computed from the volume with supports
    and the type factor, its failure is the call's failure, and its value
    determines the breakdown. *)
Inductive quote_outcome (self : QuoteEngine.t) (volume_ml : Q)
    (material_name type_piece_name typology_name : string) (quantity : Z)
    (shipping_method : string) (largest_dimension_mm : option Q)
    : result Breakdown -> Prop :=
| outcome_unknown_material :
    materials self !! material_name = None ->
    quote_outcome self volume_ml material_name type_piece_name typology_name
      quantity shipping_method largest_dimension_mm
      (Raise (ValueError ("Unknown material: " ++ material_name)))
| outcome_quantity_overflows mat :
    materials self !! material_name = Some mat ->
    ~ quantity_fits quantity ->
    quote_outcome self volume_ml material_name type_piece_name typology_name
      quantity shipping_method largest_dimension_mm (Raise OverflowError)
| outcome_time_fails mat e :
    materials self !! material_name = Some mat ->
    quantity_fits quantity ->
    machine_time self material_name largest_dimension_mm
      (volume_ml * inject_Z (clamp_quantity quantity)
       * (1 + support_percent_of self material_name / 100))
      (type_factor_of self type_piece_name) = Raise e ->
    quote_outcome self volume_ml material_name type_piece_name typology_name
      quantity shipping_method largest_dimension_mm (Raise e)
| outcome_breakdown mat hours b :
    materials self !! material_name = Some mat ->
    quantity_fits quantity ->
    machine_time self material_name largest_dimension_mm
      (volume_ml * inject_Z (clamp_quantity quantity)
       * (1 + support_percent_of self material_name / 100))
      (type_factor_of self type_piece_name) = Ok hours ->
    quote_fields self mat volume_ml material_name type_piece_name
      typology_name quantity shipping_method hours b ->
    quote_outcome self volume_ml material_name type_piece_name typology_name
      quantity shipping_method largest_dimension_mm (Ok b).


(** ** Monotonicity *)

(** Every number of the configuration is non-negative. *)
Record nonneg_config (self : QuoteEngine.t) : Prop := {
  nonneg_post_rate : 0 <= post_rate self;
  nonneg_finish_rate : 0 <= finish_rate self;
  nonneg_tva_rate : 0 <= tva_rate self;
  nonneg_machine_hour_rate : 0 <= machine_hour_rate self;
  nonneg_machine_time_per_ml : 0 <= machine_time_per_ml self;
  nonneg_shipping_retrait : 0 <= shipping_retrait self;
  nonneg_shipping_delivery : 0 <= shipping_delivery self;
  nonneg_time_factor : 0 <= time_factor self;
  nonneg_prices :
    map_Forall (fun _ mat => 0 <= price_per_ml_with_loss mat) (materials self);
  nonneg_factors :
    map_Forall (fun _ tp => 0 <= factor tp) (type_pieces self);
  nonneg_bag_prices :
    map_Forall (fun _ ty => 0 <= bag_price ty) (typologies self);
  nonneg_support_percent :
    map_Forall (fun _ p => 0 <= p) (material_support_percent self);
  nonneg_print_speed :
    map_Forall (fun _ s => 0 <= s) (material_print_speed self);
  nonneg_markup : List.Forall (fun e => 0 <= snd e) (markup_table self);
  nonneg_packaging : List.Forall (fun e => 0 <= snd e) (packaging_table self)
}.

(** A bound on the magnitudes of an order that keeps every number of a
    quote within binary64, whose largest number is just below [2^1024]:
    the longest chain of products, from the volume to [total_ttc], has
    nine factors.  Past the range a product is [inf], and [inf * 0] is
    [nan], of which no comparison holds. *)
Definition magnitude_bound : Q := inject_Z (2 ^ 100).

Definition moderate (x : Q) : Prop := x <= magnitude_bound.

(** No number of the configuration is above the bound, and a stored speed
    is zero or at least the inverse of the bound. *)
Record moderate_config (self : QuoteEngine.t) : Prop := {
  moderate_post_rate : moderate (post_rate self);
  moderate_finish_rate : moderate (finish_rate self);
  moderate_tva_rate : moderate (tva_rate self);
  moderate_machine_hour_rate : moderate (machine_hour_rate self);
  moderate_machine_time_per_ml : moderate (machine_time_per_ml self);
  moderate_shipping_retrait : moderate (shipping_retrait self);
  moderate_shipping_delivery : moderate (shipping_delivery self);
  moderate_time_factor : moderate (time_factor self);
  moderate_prices :
    map_Forall (fun _ mat => moderate (price_per_ml_with_loss mat))
               (materials self);
  moderate_factors :
    map_Forall (fun _ tp => moderate (factor tp)) (type_pieces self);
  moderate_bag_prices :
    map_Forall (fun _ ty => moderate (bag_price ty)) (typologies self);
  moderate_support_percent :
    map_Forall (fun _ p => moderate p) (material_support_percent self);
  moderate_print_speed :
    map_Forall (fun _ s => s == 0 \/ / magnitude_bound <= s)
               (material_print_speed self);
  moderate_markup : List.Forall (fun e => moderate (snd e)) (markup_table self);
  moderate_packaging :
    List.Forall (fun e => moderate (snd e)) (packaging_table self)
}.

(** An order of moderate size: the configuration, the volume, the quantity
    and the largest dimension, if given. *)
Record moderate_order (self : QuoteEngine.t) (volume_ml : Q) (quantity : Z)
    (largest_dimension_mm : option Q) : Prop := {
  moderate_engine : moderate_config self;
  moderate_volume : moderate volume_ml;
  moderate_quantity : (quantity <= 2 ^ 100)%Z;
  moderate_dimension :
    forall l, largest_dimension_mm = Some l -> moderate (Qabs l)
}.

(** The values of a tier table never decrease along the table, starting
    from the default [dflt] of the lookup. *)
Definition nondecreasing_from (dflt : Q) (table : list (Q * Q)) : Prop :=
  Sorted Qle (dflt :: map snd table).

(** The cost fields that do not go through a tier table. *)
Definition direct_costs_le (b1 b2 : Breakdown) : Prop :=
  material_cost b1 <= material_cost b2 /\
  machine_cost b1 <= machine_cost b2 /\
  base_cost b1 <= base_cost b2 /\
  post_cost b1 <= post_cost b2 /\
  finish_cost b1 <= finish_cost b2 /\
  painting_cost b1 <= painting_cost b2 /\
  total_cost_before_markup b1 <= total_cost_before_markup b2 /\
  bag_cost b1 <= bag_cost b2 /\
  shipping_cost b1 <= shipping_cost b2.

(** The plate price, which goes through the markup tier. *)
Definition plate_price_le (b1 b2 : Breakdown) : Prop :=
  markup_factor b1 <= markup_factor b2 /\
  price_ht_plate b1 <= price_ht_plate b2.

(** The totals, which add the plate price and the packaging cost. *)
Definition totals_le (b1 b2 : Breakdown) : Prop :=
  total_ht b1 <= total_ht b2 /\
  vat b1 <= vat b2 /\
  total_ttc b1 <= total_ttc b2.

(** ** Format detection *)

(** [b] is the lowercase letter [c] or its uppercase form. *)
Definition letter_matches (b c : byte) : Prop :=
  b = c \/
  ((Byte.to_N b + 32)%N = Byte.to_N c /\
   (97 <= Byte.to_N c)%N /\ (Byte.to_N c <= 122)%N).

(** [data] begins, letter case aside, with [marker]. *)
Definition begins_ignoring_case (marker data : list byte) : Prop :=
  exists p rest, data = p ++ rest /\ Forall2 letter_matches p marker.

(** [token] occurs within the first [window] bytes of [data]. *)
Definition occurs_within (window : nat) (token data : list byte) : Prop :=
  exists pre post, firstn window data = pre ++ token ++ post.

(** The wording of the specification: the payload begins, letter case
    aside, with the text-mesh marker and the facet token occurs in the
    prefix window of 200 bytes. *)
Definition text_format_marked (data : list byte) : Prop :=
  begins_ignoring_case solid data /\ occurs_within 200 facet_token data.

Definition lowercase_letter (c : byte) : Prop :=
  (97 <= Byte.to_N c)%N /\ (Byte.to_N c <= 122)%N.

(** The head of a text file whose marker is written in mixed case. *)
Definition mixed_case_payload : list byte :=
  list_byte_of_string "SoLiD cube facet normal 0 0 1".

(** ** Facets and winding *)

(** [f'] is [f] with two of its vertices swapped: the three ways of
    reversing the winding order of a triangle. *)
Definition swapped_two {A : Type} (f f' : A * A * A) : Prop :=
  let '(v1, v2, v3) := f in
  f' = (v1, v3, v2) \/ f' = (v3, v2, v1) \/ f' = (v2, v1, v3).

(** [f'] is [f] with its second and third vertices swapped: the reversal
    that exchanges the two factors of the cross product [v2 x v3] that
    the code takes. *)
Definition reversed (f f' : facet) : Prop :=
  let '(v1, v2, v3) := f in f' = (v1, v3, v2).

Definition facet_volume (f : facet) : Q :=
  let '(v1, v2, v3) := f in signed_tetrahedron_volume v1 v2 v3.

(** The vertex stream of a text file that lists the facets [fs]. *)
Definition vertices_of (fs : list facet) : list vertex :=
  flat_map (fun f : facet => let '(v1, v2, v3) := f in [v1; v2; v3]) fs.

(** The totals of two states are opposite. *)
Definition opposite (st st' : state) : Prop :=
  total_volume_mm3 st' == - total_volume_mm3 st.

(** A cube of side 10 mm, two triangles a face, wound outwards. *)
Definition cube_facets : list facet :=
  [((0, 0, 0), (0, 10, 0), (10, 10, 0));
   ((0, 0, 0), (10, 10, 0), (10, 0, 0));
   ((0, 0, 10), (10, 0, 10), (10, 10, 10));
   ((0, 0, 10), (10, 10, 10), (0, 10, 10));
   ((0, 0, 0), (10, 0, 0), (10, 0, 10));
   ((0, 0, 0), (10, 0, 10), (0, 0, 10));
   ((0, 10, 0), (0, 10, 10), (10, 10, 10));
   ((0, 10, 0), (10, 10, 10), (10, 10, 0));
   ((0, 0, 0), (0, 0, 10), (0, 10, 10));
   ((0, 0, 0), (0, 10, 10), (0, 10, 0));
   ((10, 0, 0), (10, 10, 0), (10, 10, 10));
   ((10, 0, 0), (10, 10, 10), (10, 0, 10))].

(** Facets in binary64.  [sliver] is the facet of a text file whose vertex
    lines read [vertex 0 0 0.1], [vertex 0 0.3 0] and [vertex 0.1 0 0]:
    [1 / 10] and [3 / 10] are the floats nearest to 0.1 and 0.3, those
    that [float] reads.  [wedge] is a facet of a binary file: its
    coordinates are the 32-bit floats nearest to 0.1, 0.2 and 0.3, each
    an integer below [2^24] over a power of two, which [struct.unpack]
    widens without rounding.  Each facet comes with its first two vertices
    swapped and with its last two vertices swapped. *)
Module Facets64.

Import PrimFloat.
Local Open Scope float_scope.

Definition sliver : Binary64.facet :=
  ((0, 0, 1 / 10), (0, 3 / 10, 0), (1 / 10, 0, 0)).

Definition sliver_first_two_swapped : Binary64.facet :=
  ((0, 3 / 10, 0), (0, 0, 1 / 10), (1 / 10, 0, 0)).

Definition sliver_last_two_swapped : Binary64.facet :=
  ((0, 0, 1 / 10), (1 / 10, 0, 0), (0, 3 / 10, 0)).

Definition tenth_32 : float := 13421773 / 134217728.
Definition fifth_32 : float := 13421773 / 67108864.
Definition three_tenths_32 : float := 5033165 / 16777216.

Definition wedge : Binary64.facet :=
  ((0, 0, tenth_32), (tenth_32, tenth_32, 0),
   (fifth_32, three_tenths_32, 0)).

Definition wedge_first_two_swapped : Binary64.facet :=
  ((tenth_32, tenth_32, 0), (0, 0, tenth_32),
   (fifth_32, three_tenths_32, 0)).

Definition wedge_last_two_swapped : Binary64.facet :=
  ((0, 0, tenth_32), (fifth_32, three_tenths_32, 0),
   (tenth_32, tenth_32, 0)).

(** The vertex stream of a text file that lists one facet. *)
Definition vertices_of (f : Binary64.facet) : list Binary64.vertex :=
  let '(v1, v2, v3) := f in [v1; v2; v3].

End Facets64.

(** Equality of two results of the extractor, number by number. *)
Definition same_summary (r r' : Q * (Q * Q * Q)) : Prop :=
  let '(v, (a, b, c)) := r in
  let '(v', (a', b', c')) := r' in
  v == v' /\ a == a' /\ b == b' /\ c == c'.

(** ** Vocabulary of the further properties *)

(** One pass of either loop over a facet: its three vertices are seen,
    then its signed volume is added. *)
Definition process_facet (st : state) (f : facet) : state :=
  let '(v1, v2, v3) := f in
  add_volume (see_vertex (see_vertex (see_vertex st v1) v2) v3)
             (signed_tetrahedron_volume v1 v2 v3).

Definition process_facets (fs : list facet) (st : state) : state :=
  fold_left process_facet fs st.

(** The facets that the binary branch reads when the header declares
    [num_triangles] of them: never fewer than one, if there is one. *)
Definition facets_read (num_triangles : Z) (fs : list facet) : list facet :=
  firstn (Z.to_nat (Z.max num_triangles 1)) fs.

(** The facets that a vertex stream makes: consecutive groups of three;
    one or two vertices left at the end make none. *)
Fixpoint facets_of_vertices (vs : list vertex) : list facet :=
  match vs with
  | v1 :: v2 :: v3 :: rest => (v1, v2, v3) :: facets_of_vertices rest
  | _ => []
  end.

(** The running sum of the signed volumes of the facets: each is added to
    the sum of those before it, from 0, in the order of the list, as
    [total_volume_mm3 += ...] does. *)
Definition facets_sum (fs : list facet) : Q :=
  fold_left (fun total f => total + facet_volume f) fs 0.





(** The engine [self] with another [machine_time_per_ml]. *)
Definition with_machine_time_per_ml (x : Q) (self : QuoteEngine.t)
    : QuoteEngine.t :=
  {| materials := materials self;
     type_pieces := type_pieces self;
     typologies := typologies self;
     markup_table := markup_table self;
     packaging_table := packaging_table self;
     post_rate := post_rate self;
     finish_rate := finish_rate self;
     tva_rate := tva_rate self;
     machine_hour_rate := machine_hour_rate self;
     machine_time_per_ml := x;
     shipping_retrait := shipping_retrait self;
     shipping_delivery := shipping_delivery self;
     material_support_percent := material_support_percent self;
     material_print_speed := material_print_speed self;
     time_factor := time_factor self |}.

(** The defaults that [__init__] reads from the environment. *)
Definition env_default_support (getenv : string -> option string)
    (py_float : string -> option Q) : Q :=
  Loading.float_or py_float
    (Loading.os_getenv getenv "DEFAULT_SUPPORT_PERCENT" "0") 0.

Definition env_default_speed (getenv : string -> option string)
    (py_float : string -> option Q) : Q :=
  Loading.float_or py_float
    (Loading.os_getenv getenv "DEFAULT_PRINT_SPEED" "10") 10.

Definition env_time_factor (getenv : string -> option string)
    (py_float : string -> option Q) : Q :=
  Loading.float_or py_float (Loading.os_getenv getenv "TIME_FACTOR" "1") 1.

(** The value a dictionary holds under [k] once every key of [keys] has
    been given the default [d]: its own value if it had one. *)
Definition defaulted {A} (d : Q) (keys : gmap string A)
    (dict : gmap string Q) (k : string) : option Q :=
  match dict !! k with
  | Some x => Some x
  | None => match keys !! k with Some _ => Some d | None => None end
  end.

(** An environment that sets none of the variables, and a [float] that
    reads the three default literals. *)
Definition empty_env (name : string) : option string := None.

Definition float_of_default (s : string) : option Q :=
  if String.eqb s "0" then Some 0
  else if String.eqb s "10" then Some 10
  else if String.eqb s "1" then Some 1
  else None.

(** An environment with [DEFAULT_PRINT_SPEED=0]. *)
Definition zero_speed_env (name : string) : option string :=
  if String.eqb name "DEFAULT_PRINT_SPEED" then Some "0"%string else None.

(** The scenario engine as [_load_parameters] leaves it: no support
    percentage and no print speed is read from the workbook. *)
Definition loaded_engine : QuoteEngine.t :=
  {| materials := materials scenario_engine;
     type_pieces := type_pieces scenario_engine;
     typologies := typologies scenario_engine;
     markup_table := [(50, 1.2); (0, 1)];
     packaging_table := [(100, 4); (0, 2)];
     post_rate := post_rate scenario_engine;
     finish_rate := finish_rate scenario_engine;
     tva_rate := tva_rate scenario_engine;
     machine_hour_rate := machine_hour_rate scenario_engine;
     machine_time_per_ml := machine_time_per_ml scenario_engine;
     shipping_retrait := shipping_retrait scenario_engine;
     shipping_delivery := shipping_delivery scenario_engine;
     material_support_percent := ∅;
     material_print_speed := ∅;
     time_factor := 1 |}.

(** What a line of a text file yields: its vertex, if it is a vertex line
    whose three numbers are read. *)
Definition line_vertex (str : Type) (strip lower : str -> str)
    (startswith : str -> str -> bool) (split : str -> list str)
    (py_float : str -> option Q) (vertex_word : str) (line : str)
    : option vertex :=
  if startswith (lower (strip line)) vertex_word
  then StlText.vertex_of_parts str py_float (split (strip line))
  else None.

(** * Properties *)

(** ** Step lookups over the tier tables *)

Section TierTables.

Lemma by_threshold_trans : Transitive by_threshold.
Proof. intros a b c Hab Hbc. unfold by_threshold in *. lra. Qed.

Lemma strictly_by_threshold_trans : Transitive strictly_by_threshold.
Proof. intros a b c Hab Hbc. unfold strictly_by_threshold in *. lra. Qed.

Lemma sorted_ascending_inv e table :
  sorted_ascending (e :: table) ->
  sorted_ascending table /\ forall e', In e' table -> fst e <= fst e'.
Proof.
  intros Hs.
  apply (Sorted_StronglySorted by_threshold_trans) in Hs.
  inversion Hs as [| ? ? Hrest Hall]; subst. split.
  - apply StronglySorted_Sorted, Hrest.
  - intros e' Hin. apply (proj1 (List.Forall_forall _ _) Hall e' Hin).
Qed.

Lemma strictly_ascending_inv e table :
  strictly_ascending (e :: table) ->
  strictly_ascending table /\ forall e', In e' table -> fst e < fst e'.
Proof.
  intros Hs.
  apply (Sorted_StronglySorted strictly_by_threshold_trans) in Hs.
  inversion Hs as [| ? ? Hrest Hall]; subst. split.
  - apply StronglySorted_Sorted, Hrest.
  - intros e' Hin. apply (proj1 (List.Forall_forall _ _) Hall e' Hin).
Qed.

(** In a strictly ascending table a threshold names one tier. *)
Lemma strictly_ascending_unique table :
  strictly_ascending table ->
  forall a b, In a table -> In b table -> fst a == fst b -> a = b.
Proof.
  induction table as [| e table IH]; intros Hs a b Ha Hb Hab.
  - destruct Ha.
  - apply strictly_ascending_inv in Hs. destruct Hs as [Hs Hlt].
    destruct Ha as [Ha | Ha], Hb as [Hb | Hb]; subst.
    + reflexivity.
    + specialize (Hlt b Hb). lra.
    + specialize (Hlt a Ha). lra.
    + apply IH; assumption.
Qed.

(** The scan either keeps its accumulator, every tier lying above [v], or
    ends on a tier with the highest threshold not above [v]. *)
Lemma tier_scan_cases table :
  sorted_ascending table ->
  forall v acc,
    (tier_scan table v acc = acc /\ forall e, In e table -> v < fst e) \/
    (exists t0, highest_tier_le table v t0 (tier_scan table v acc)).
Proof.
  induction table as [| [t f] table IH]; intros Hs v acc.
  - left. split; [reflexivity | intros e []].
  - apply sorted_ascending_inv in Hs. destruct Hs as [Hs Hle].
    simpl. destruct (Qle_bool t v) eqn:Htv.
    + apply Qle_bool_iff in Htv. right.
      destruct (IH Hs v f) as [[Hacc Habove] | [t0 [Hin [Ht0 Hmax]]]].
      * exists t. rewrite Hacc. split; [left; reflexivity |].
        split; [exact Htv |].
        intros t' x' [Heq | Hin] Hle'.
        -- inversion Heq; subst. lra.
        -- specialize (Habove _ Hin). simpl in Habove. lra.
      * exists t0. split; [right; exact Hin |]. split; [exact Ht0 |].
        intros t' x' [Heq | Hin'] Hle'.
        -- inversion Heq; subst. apply (Hle _ Hin).
        -- apply (Hmax _ _ Hin' Hle').
    + left. split; [reflexivity |].
      assert (v < t) as Hvt.
      { apply Qnot_le_lt. intros H. apply Qle_bool_iff in H. congruence. }
      intros e [Heq | Hin].
      * subst e. exact Hvt.
      * specialize (Hle _ Hin). simpl in Hle. lra.
Qed.

Lemma tier_scan_step_function table dflt :
  sorted_ascending table ->
  step_function_of table dflt (fun v => tier_scan table v dflt).
Proof.
  intros Hs v.
  assert (forall t x, In (t, x) table -> t <= v ->
            exists t0, highest_tier_le table v t0 (tier_scan table v dflt))
    as Hhigh.
  { intros t x Hin Hle.
    destruct (tier_scan_cases table Hs v dflt) as [[_ Habove] | Hex].
    - specialize (Habove _ Hin). simpl in Habove. lra.
    - exact Hex. }
  split; [| split; [exact Hhigh | split]].
  - intros Hbelow. destruct table as [| [t f] table]; [reflexivity |].
    simpl. destruct (Qle_bool t v) eqn:Htv; [| reflexivity].
    apply Qle_bool_iff in Htv.
    specialize (Hbelow t f (or_introl eq_refl)). lra.
  - intros t x Hin Heq.
    destruct (Hhigh t x Hin) as [t0 [Hin0 [Hle0 Hmax]]]; [lra |].
    exists t0. split; [| exact Hin0].
    specialize (Hmax _ _ Hin). lra.
  - intros Hstrict t x Hin Heq.
    destruct (Hhigh t x Hin) as [t0 [Hin0 [Hle0 Hmax]]]; [lra |].
    assert (t0 == t) as Ht0 by (specialize (Hmax _ _ Hin); lra).
    pose proof (strictly_ascending_unique table Hstrict _ _ Hin0 Hin Ht0)
      as Hsame.
    inversion Hsame. reflexivity.
Qed.

End TierTables.

(** C3. Over tables sorted ascending by threshold, [_get_markup_factor] and
    [_get_packaging_cost] are step functions: below every threshold they
    return the default (1 for the markup, 0 for the packaging), otherwise
    the value of a tier whose threshold is the highest one not above the
    volume; at a volume equal to a threshold the tier of that threshold
    applies (and is the unique such tier when thresholds do not repeat). *)
Theorem step_lookup_right_continuous (self : QuoteEngine.t) :
  sorted_ascending (markup_table self) ->
  sorted_ascending (packaging_table self) ->
  step_function_of (markup_table self) 1 (_get_markup_factor self) /\
  step_function_of (packaging_table self) 0 (_get_packaging_cost self).
Proof.
  intros Hm Hp. split.
  - apply (tier_scan_step_function _ 1 Hm).
  - apply (tier_scan_step_function _ 0 Hp).
Qed.

(** The scenarios of the specification for the markup table. *)
Example markup_scenario_20 : _get_markup_factor scenario_engine 20 = 1.
Proof. reflexivity. Qed.

Example markup_scenario_50 : _get_markup_factor scenario_engine 50 = 1.2.
Proof. reflexivity. Qed.

Lemma step_lookup_right_continuous_witness :
  step_function_of (markup_table scenario_engine) 1
                   (_get_markup_factor scenario_engine) /\
  step_function_of (packaging_table scenario_engine) 0
                   (_get_packaging_cost scenario_engine).
Proof.
  apply (step_lookup_right_continuous scenario_engine).
  - repeat constructor; unfold by_threshold; simpl; lra.
  - repeat constructor; unfold by_threshold; simpl; lra.
Defined.

(** ** Float operations *)

Section FloatOperations.

Lemma half_min_float_pos : 0 < half_min_float.
Proof. reflexivity. Qed.

Lemma rounds_to_zero_spec x :
  rounds_to_zero x = true <-> Qabs x <= half_min_float.
Proof. unfold rounds_to_zero. apply Qle_bool_iff. Qed.

Lemma zero_rounds_to_zero x : x == 0 -> rounds_to_zero x = true.
Proof.
  intros Hx. apply rounds_to_zero_spec. rewrite Hx.
  apply Qlt_le_weak, half_min_float_pos.
Qed.

(** A quotient that rounds to zero is zero; any other is the quotient,
    and is not zero. *)
Lemma float_quotient_zero a b :
  rounds_to_zero (a / b) = true -> float_quotient a b = 0.
Proof. intros H. unfold float_quotient. rewrite H. reflexivity. Qed.

Lemma float_quotient_exact a b :
  rounds_to_zero (a / b) = false -> float_quotient a b = a / b.
Proof. intros H. unfold float_quotient. rewrite H. reflexivity. Qed.

Lemma float_quotient_nonzero a b :
  rounds_to_zero (a / b) = false -> ~ float_quotient a b == 0.
Proof.
  intros H Hz. rewrite (float_quotient_exact a b H) in Hz.
  rewrite (zero_rounds_to_zero _ Hz) in H. discriminate H.
Qed.


Lemma float_quotient_nonneg a b : 0 <= a -> 0 <= b -> 0 <= float_quotient a b.
Proof.
  intros Ha Hb. unfold float_quotient.
  destruct (rounds_to_zero (a / b)); [lra |].
  unfold Qdiv.
  apply Qmult_le_0_compat; [exact Ha | apply Qinv_le_0_compat; exact Hb].
Qed.

Lemma py_div_nonzero a b : ~ b == 0 -> py_div a b = Ok (float_quotient a b).
Proof.
  intros Hb. unfold py_div. destruct (Qeq_bool b 0) eqn:E; [| reflexivity].
  apply Qeq_bool_iff in E. contradiction.
Qed.

Lemma py_div_zero a b : b == 0 -> py_div a b = Raise ZeroDivisionError.
Proof.
  intros Hb. unfold py_div. apply Qeq_bool_iff in Hb. rewrite Hb. reflexivity.
Qed.

Lemma float_of_int_fits n :
  (Z.abs n < float_limit)%Z -> float_of_int n = Ok (inject_Z n).
Proof.
  intros H. unfold float_of_int. apply Z.ltb_lt in H. rewrite H. reflexivity.
Qed.

Lemma float_of_int_overflows n :
  (float_limit <= Z.abs n)%Z -> float_of_int n = Raise OverflowError.
Proof.
  intros H. unfold float_of_int. apply Z.ltb_ge in H. rewrite H. reflexivity.
Qed.

Lemma clamp_quantity_max q : clamp_quantity q = Z.max q 1.
Proof. unfold clamp_quantity. destruct (Z.ltb_spec q 1); lia. Qed.

Lemma clamp_quantity_ge_1 q : (1 <= clamp_quantity q)%Z.
Proof. rewrite clamp_quantity_max. lia. Qed.

Lemma quantity_fits_dec q : {quantity_fits q} + {~ quantity_fits q}.
Proof. unfold quantity_fits. apply Z_lt_dec. Qed.

Lemma float_of_quantity_fits q :
  quantity_fits q ->
  float_of_int (clamp_quantity q) = Ok (inject_Z (clamp_quantity q)).
Proof.
  unfold quantity_fits. intros H. apply float_of_int_fits.
  rewrite clamp_quantity_max. lia.
Qed.

Lemma float_of_quantity_overflows q :
  ~ quantity_fits q -> float_of_int (clamp_quantity q) = Raise OverflowError.
Proof.
  unfold quantity_fits. intros H. apply float_of_int_overflows.
  rewrite clamp_quantity_max. lia.
Qed.

(** The magnitudes of a moderate order are far from both ends of the
    range. *)
Lemma moderate_quantity_fits q : (q <= 2 ^ 100)%Z -> quantity_fits q.
Proof.
  intros H. unfold quantity_fits.
  assert (2 ^ 100 < float_limit)%Z as Hlimit by reflexivity.
  lia.
Qed.

Lemma moderate_speed_usable s :
  / magnitude_bound <= s -> rounds_to_zero (s / 10) = false.
Proof.
  intros Hs.
  destruct (rounds_to_zero (s / 10)) eqn:E; [| reflexivity].
  apply rounds_to_zero_spec in E.
  pose proof (Qle_Qabs (s / 10)) as Habs.
  assert (half_min_float * 10 < / magnitude_bound) as Hgap by reflexivity.
  assert (s == s / 10 * 10) as Hten by field.
  revert Hs E Hgap.
  generalize (/ magnitude_bound). generalize half_min_float.
  intros tiny small Hs E Hgap. lra.
Qed.

End FloatOperations.

(** ** The pipeline of [compute_quote] *)

Section Pipeline.

Variable self : QuoteEngine.t.

Lemma machine_time_volume m vws tf :
  machine_time self m None vws tf = Ok (vws * machine_time_per_ml self * tf).
Proof. reflexivity. Qed.

Lemma machine_time_dimension m l s vws tf :
  material_print_speed self !! m = Some s ->
  rounds_to_zero (s / 10) = false ->
  machine_time self m (Some l) vws tf
  = Ok (float_quotient (float_quotient (l * time_factor self) (s / 10)) 3600).
Proof.
  intros Hs Hnz. unfold machine_time. rewrite Hs.
  rewrite (py_div_nonzero s 10) by (intros H; discriminate H).
  cbn [bind].
  rewrite (py_div_nonzero _ _ (float_quotient_nonzero s 10 Hnz)).
  cbn [bind].
  rewrite (py_div_nonzero _ 3600) by (intros H; discriminate H).
  rewrite (float_quotient_exact s 10 Hnz). reflexivity.
Qed.

Lemma machine_time_default_speed m l vws tf :
  material_print_speed self !! m = None ->
  machine_time self m (Some l) vws tf
  = Ok (float_quotient (float_quotient (l * time_factor self) 1) 3600).
Proof.
  intros Hs. unfold machine_time. rewrite Hs. cbn [bind].
  rewrite (py_div_nonzero _ 1) by (intros H; discriminate H).
  cbn [bind].
  rewrite (py_div_nonzero _ 3600) by (intros H; discriminate H).
  reflexivity.
Qed.

Lemma machine_time_zero_speed m l s vws tf :
  material_print_speed self !! m = Some s ->
  rounds_to_zero (s / 10) = true ->
  machine_time self m (Some l) vws tf = Raise ZeroDivisionError.
Proof.
  intros Hs Hz. unfold machine_time. rewrite Hs.
  rewrite (py_div_nonzero s 10) by (intros H; discriminate H).
  cbn [bind].
  rewrite (py_div_zero _ (float_quotient s 10)); [reflexivity |].
  rewrite (float_quotient_zero s 10 Hz). reflexivity.
Qed.

(** [machine_time] fails in exactly one way. *)
Lemma machine_time_cases m L vws tf :
  (exists h, machine_time self m L vws tf = Ok h /\ speed_usable self m L) \/
  (machine_time self m L vws tf = Raise ZeroDivisionError /\
   zero_speed self m L).
Proof.
  destruct L as [l |].
  - destruct (material_print_speed self !! m) as [s |] eqn:Hs.
    + destruct (rounds_to_zero (s / 10)) eqn:Hz.
      * right. split; [apply (machine_time_zero_speed m l s); assumption |].
        exists l, s. auto.
      * left. eexists.
        split; [apply (machine_time_dimension m l s); assumption |].
        intros l' s' _ Hs'. rewrite Hs in Hs'. injection Hs' as <-. exact Hz.
    + left. eexists.
      split; [apply machine_time_default_speed; assumption |].
      intros l' s' _ Hs'. rewrite Hs in Hs'. discriminate Hs'.
  - left. eexists. split; [apply machine_time_volume |].
    intros l s Hl. discriminate Hl.
Qed.

Lemma zero_speed_not_usable m L : zero_speed self m L -> ~ speed_usable self m L.
Proof.
  intros (l & s & HL & Hs & Hz) Hu. rewrite (Hu l s HL Hs) in Hz.
  discriminate Hz.
Qed.

End Pipeline.

Section Quotes.

Variable self : QuoteEngine.t.

Lemma compute_quote_outcome v m tp ty q sh ap L :
  quote_outcome self v m tp ty q sh L
    (compute_quote self v m tp ty q sh ap L).
Proof.
  unfold compute_quote.
  destruct (materials self !! m) as [mat |] eqn:Hmat;
    [| apply outcome_unknown_material; exact Hmat].
  assert (factor (default {| tp_name := tp; factor := 1 |}
                          (type_pieces self !! tp)) = type_factor_of self tp)
    as ->.
  { unfold type_factor_of. destruct (type_pieces self !! tp); reflexivity. }
  assert (bag_price (default {| ty_name := ty; bag_price := 0 |}
                             (typologies self !! ty)) = bag_price_of self ty)
    as ->.
  { unfold bag_price_of. destruct (typologies self !! ty); reflexivity. }
  assert (default 0 (material_support_percent self !! m)
          = support_percent_of self m) as ->.
  { unfold support_percent_of.
    destruct (material_support_percent self !! m); reflexivity. }
  unfold py_mul_int.
  destruct (quantity_fits_dec q) as [Hfit | Hover].
  2:{ rewrite (float_of_quantity_overflows q Hover). cbn [bind].
      apply (outcome_quantity_overflows self _ _ _ _ _ _ _ mat);
        assumption. }
  rewrite (float_of_quantity_fits q Hfit). cbn [bind]. cbv zeta.
  destruct (machine_time self m L _ _) as [hours | e] eqn:Htime; cbn [bind].
  - apply (outcome_breakdown self _ _ _ _ _ _ _ mat hours);
      [exact Hmat | exact Hfit | exact Htime |].
    unfold quote_fields; cbn.
    destruct ap; repeat split; reflexivity.
  - apply (outcome_time_fails self _ _ _ _ _ _ _ mat e); assumption.
Qed.

(** With a known material a call returns, or the quantity does not fit a
    float, or the dimension path divides by zero. *)
Lemma known_material_outcome v m tp ty q sh ap L mat :
  materials self !! m = Some mat ->
  (exists hours b,
     compute_quote self v m tp ty q sh ap L = Ok b /\
     quantity_fits q /\ speed_usable self m L /\
     machine_time self m L
       (v * inject_Z (clamp_quantity q)
        * (1 + support_percent_of self m / 100))
       (type_factor_of self tp) = Ok hours /\
     quote_fields self mat v m tp ty q sh hours b) \/
  (compute_quote self v m tp ty q sh ap L = Raise ZeroDivisionError /\
   quantity_fits q /\ zero_speed self m L) \/
  (compute_quote self v m tp ty q sh ap L = Raise OverflowError /\
   ~ quantity_fits q).
Proof.
  intros Hmat.
  destruct (compute_quote_outcome v m tp ty q sh ap L)
    as [Hnone | mat' Hmat' Hover | mat' e Hmat' Hfit Hfail
        | mat' hours b Hmat' Hfit Hok Hfields].
  - congruence.
  - right. right. split; [reflexivity | exact Hover].
  - right. left.
    destruct (machine_time_cases self m L
                (v * inject_Z (clamp_quantity q)
                 * (1 + support_percent_of self m / 100))
                (type_factor_of self tp)) as [[h [Hh _]] | [Hz Hzero]].
    + congruence.
    + split; [congruence | split; [exact Hfit | exact Hzero]].
  - left. assert (mat' = mat) as -> by congruence.
    exists hours, b. split; [reflexivity |]. split; [exact Hfit |].
    split; [| split; [exact Hok | exact Hfields]].
    destruct (machine_time_cases self m L
                (v * inject_Z (clamp_quantity q)
                 * (1 + support_percent_of self m / 100))
                (type_factor_of self tp)) as [[h [_ Hu]] | [Hz _]].
    + exact Hu.
    + congruence.
Qed.

(** A call returns when the material is known, the quantity fits a float
    and the dimension path has a speed to divide by. *)
Lemma compute_quote_returns v m tp ty q sh ap L mat :
  materials self !! m = Some mat ->
  quantity_fits q -> speed_usable self m L ->
  exists hours b,
    compute_quote self v m tp ty q sh ap L = Ok b /\
    machine_time self m L
      (v * inject_Z (clamp_quantity q)
       * (1 + support_percent_of self m / 100))
      (type_factor_of self tp) = Ok hours /\
    quote_fields self mat v m tp ty q sh hours b.
Proof.
  intros Hmat Hfit Hu.
  destruct (known_material_outcome v m tp ty q sh ap L mat Hmat)
    as [(hours & b & Hret & _ & _ & Htime & Hf)
       | [(_ & _ & Hzero) | (_ & Hover)]].
  - exists hours, b. auto.
  - exfalso. apply (zero_speed_not_usable self m L Hzero Hu).
  - contradiction.
Qed.

(** The shipping method plays no part in whether a call returns. *)
Lemma shipping_method_outcome v m tp ty q sh sh' ap L :
  match compute_quote self v m tp ty q sh ap L,
        compute_quote self v m tp ty q sh' ap L with
  | Ok _, Ok _ => True
  | Raise e, Raise e' => e = e'
  | _, _ => False
  end.
Proof.
  unfold compute_quote.
  destruct (materials self !! m) as [mat |]; [| reflexivity].
  destruct (py_mul_int v (clamp_quantity q)) as [eff |]; cbn [bind];
    [| reflexivity].
  cbv zeta.
  destruct (machine_time self m L _ _) as [hours |]; cbn [bind];
    [| reflexivity].
  destruct (py_mul_int _ (clamp_quantity q)); cbn [bind];
    [exact I | reflexivity].
Qed.

End Quotes.

(** ** Machine time *)




(** The two failures that binary64 adds to the zero speed: a quantity of
    [10^400] does not fit a float, and the smallest positive float,
    [2^-1074], is a speed whose tenth rounds to zero. *)
Example huge_quantity_overflows :
  compute_quote scenario_engine 10 "Resin" "Standard" "Fragile" (10 ^ 400)
                "retrait" false None = Raise OverflowError.
Proof. vm_compute. reflexivity. Qed.

Example tiny_speed_divides_by_zero :
  material_print_speed tiny_speed_engine !! "Resin"%string
  = Some (1 # 2 ^ 1074) /\
  compute_quote tiny_speed_engine 10 "Resin" "Standard" "Fragile" 1
                "retrait" false (Some 100) = Raise ZeroDivisionError.
Proof. split; vm_compute; reflexivity. Qed.

(** Where a tenth of a speed rounds to zero: the model and binary64
    agree that five times the smallest positive float is the last speed
    to do so. *)
Example tenth_of_a_tiny_speed :
  (rounds_to_zero ((5 # 2 ^ 1074) / 10) = true /\
   PrimFloat.eqb (Speeds64.speed_mm_s Speeds64.five_min_float)
                 PrimFloat.zero = true) /\
  (rounds_to_zero ((6 # 2 ^ 1074) / 10) = false /\
   PrimFloat.eqb (Speeds64.speed_mm_s Speeds64.six_min_float)
                 PrimFloat.zero = false).
Proof. repeat split; vm_compute; reflexivity. Qed.

(** ** Failures of [compute_quote] *)

(** The unknown-material error is raised exactly when the key is absent. *)
Lemma unknown_material_iff (self : QuoteEngine.t) (v : Q) (m tp ty : string)
    (q : Z) (sh : string) (ap : bool) (L : option Q) :
  (exists msg, compute_quote self v m tp ty q sh ap L = Raise (ValueError msg))
  <-> materials self !! m = None.
Proof.
  split.
  - intros [msg Hraise].
    destruct (materials self !! m) as [mat |] eqn:Hmat; [| reflexivity].
    destruct (known_material_outcome self v m tp ty q sh ap L mat Hmat)
      as [(_ & b & Hret & _) | [(Hz & _) | (Ho & _)]]; congruence.
  - intros Hnone. eexists. unfold compute_quote. rewrite Hnone. reflexivity.
Qed.

Example unknown_material_raises :
  compute_quote scenario_engine 10 "Nylon" "Standard" "Fragile" 1
                "retrait" false None
  = Raise (ValueError "Unknown material: Nylon").
Proof. reflexivity. Qed.

(** C4, at its failing input: the material "Resin" is known, yet the call
    raises [ZeroDivisionError], the speed stored for the material being
    zero and a largest dimension being given. *)
Theorem known_material_zero_speed_raises :
  is_Some (materials zero_speed_engine !! "Resin"%string) /\
  compute_quote zero_speed_engine 10 "Resin" "Standard" "Fragile" 1
                "retrait" false (Some 100)
  = Raise ZeroDivisionError.
Proof. split; [eexists; reflexivity | reflexivity]. Qed.

(** Unknown [type_piece] and [typology] keys do not raise: they are priced
    with factor 1 and bag price 0. *)
Lemma unknown_keys_neutral (self : QuoteEngine.t) (tp ty : string) :
  type_pieces self !! tp = None -> typologies self !! ty = None ->
  type_factor_of self tp = 1 /\ bag_price_of self ty = 0.
Proof.
  intros Htp Hty. unfold type_factor_of, bag_price_of.
  rewrite Htp, Hty. split; reflexivity.
Qed.

(** ** Quantity, volumes and material cost *)

(** C6. The quantity is clamped to at least 1; the effective volume is
    [volume_ml * quantity], the volume with supports is the effective
    volume times [1 + support_percent / 100], and the material cost is
    that volume times the price per ml times the type factor.  The call
    returns these values unless the clamped quantity does not fit a float
    ([OverflowError]) or the dimension path divides by a zero speed
    ([ZeroDivisionError]).  In the scenario volume 10, quantity 2, price
    0.50, no supports and type factor 1, the volumes are 20 and the
    material cost is 10. *)
Theorem clamped_quantity_volumes_and_material_cost (self : QuoteEngine.t)
    (v : Q) (m tp ty : string) (q : Z) (sh : string) (ap : bool)
    (L : option Q) (mat : Material) :
  materials self !! m = Some mat ->
  let quantity := Z.max q 1 in
  let effective_volume := v * inject_Z quantity in
  let volume_with_supports :=
    effective_volume * (1 + support_percent_of self m / 100) in
  match compute_quote self v m tp ty q sh ap L with
  | Ok b =>
      volume_with_supports_ml b = volume_with_supports /\
      material_cost b
      = volume_with_supports * price_per_ml_with_loss mat
        * type_factor_of self tp /\
      markup_factor b = _get_markup_factor self effective_volume /\
      packaging_cost b = _get_packaging_cost self effective_volume /\
      bag_cost b = bag_price_of self ty * inject_Z quantity /\
      (v == 10 -> q = 2%Z -> price_per_ml_with_loss mat == 0.5 ->
       support_percent_of self m == 0 -> type_factor_of self tp == 1 ->
       effective_volume == 20 /\ volume_with_supports_ml b == 20 /\
       material_cost b == 10)
  | Raise e =>
      (e = OverflowError /\ (float_limit <= quantity)%Z) \/
      (e = ZeroDivisionError /\ (quantity < float_limit)%Z /\
       zero_speed self m L)
  end.
Proof.
  intros Hmat quantity effective_volume volume_with_supports.
  subst quantity effective_volume volume_with_supports.
  destruct (known_material_outcome self v m tp ty q sh ap L mat Hmat)
    as [(hours & b & Hret & _ & _ & _ & Hfields)
       | [(Hraise & Hfit & Hzero) | (Hraise & Hover)]].
  - rewrite Hret. rewrite <- clamp_quantity_max.
    unfold quote_fields in Hfields.
    destruct Hfields as (Hvws & Hmc & _ & _ & _ & _ & _ & _ & Hmk & _
                         & Hpk & Hbag & _).
    rewrite Hmc, Hvws. repeat (split; [assumption || reflexivity |]).
    intros Hv Hq Hprice Hsup Htf. subst q.
    change (inject_Z (clamp_quantity 2)) with 2.
    rewrite Hv, Hprice, Hsup, Htf. repeat split; reflexivity.
  - rewrite Hraise. right. split; [reflexivity |].
    split; [exact Hfit | exact Hzero].
  - rewrite Hraise. left. split; [reflexivity |].
    unfold quantity_fits in Hover. lia.
Qed.

Lemma clamped_quantity_volumes_and_material_cost_witness :
  exists b,
    compute_quote scenario_engine 10 "Resin" "Standard" "Fragile" 2
                  "retrait" false None = Ok b /\
    volume_with_supports_ml b == 20 /\ material_cost b == 10.
Proof.
  pose proof (clamped_quantity_volumes_and_material_cost scenario_engine 10
                "Resin" "Standard" "Fragile" 2 "retrait" false None _ eq_refl)
    as H.
  cbv zeta in H.
  destruct (compute_quote scenario_engine 10 "Resin" "Standard" "Fragile" 2
                          "retrait" false None) as [b | e] eqn:Hret.
  - exists b. split; [reflexivity |].
    destruct H as (_ & _ & _ & _ & _ & Hscenario).
    apply Hscenario; reflexivity.
  - vm_compute in Hret. discriminate Hret.
Defined.

(** A quantity below 1 is priced as quantity 1. *)
Example quantity_zero_is_one :
  compute_quote scenario_engine 10 "Resin" "Standard" "Fragile" 0
                "retrait" false None
  = compute_quote scenario_engine 10 "Resin" "Standard" "Fragile" 1
                  "retrait" false None.
Proof. reflexivity. Qed.

(** ** Shipping *)

(** C9, as the code has it.  A shipping method other than the exact
    string "retrait" is priced as a delivery: the outcome is the one of
    "livraison"; the method raises no error of its own, the call raising
    exactly what the pickup call raises; and a call that can return (the
    material is known, the quantity fits a float, the dimension path has a
    speed to divide by) does return, with the delivery rate as shipping
    cost, where "retrait" returns with the pickup rate. *)
Theorem shipping_method_not_retrait_is_delivery (self : QuoteEngine.t)
    (v : Q) (m tp ty : string) (q : Z) (s : string) (ap : bool)
    (L : option Q) :
  s <> "retrait"%string ->
  compute_quote self v m tp ty q s ap L
  = compute_quote self v m tp ty q "livraison" ap L /\
  (forall e,
     compute_quote self v m tp ty q s ap L = Raise e <->
     compute_quote self v m tp ty q "retrait" ap L = Raise e) /\
  (is_Some (materials self !! m) -> quantity_fits q ->
   speed_usable self m L ->
   exists b b',
     compute_quote self v m tp ty q s ap L = Ok b /\
     shipping_cost b = shipping_delivery self /\
     compute_quote self v m tp ty q "retrait" ap L = Ok b' /\
     shipping_cost b' = shipping_retrait self).
Proof.
  intros Hs. apply String.eqb_neq in Hs. split; [| split].
  - unfold compute_quote. rewrite Hs. reflexivity.
  - intros e.
    pose proof (shipping_method_outcome self v m tp ty q s "retrait" ap L)
      as H.
    destruct (compute_quote self v m tp ty q s ap L) as [b | e1],
             (compute_quote self v m tp ty q "retrait" ap L) as [b' | e2];
      try contradiction.
    + split; intros H0; discriminate H0.
    + subst e2. reflexivity.
  - intros [mat Hmat] Hfit Hu.
    destruct (compute_quote_returns self v m tp ty q s ap L mat Hmat Hfit Hu)
      as (hours & b & Hret & _ & Hf).
    destruct (compute_quote_returns self v m tp ty q "retrait" ap L mat Hmat
                Hfit Hu)
      as (hours' & b' & Hret' & _ & Hf').
    exists b, b'.
    unfold quote_fields in Hf, Hf'.
    destruct Hf as (_ & _ & _ & _ & _ & _ & _ & _ & _ & _ & _ & _ & S & _).
    destruct Hf' as (_ & _ & _ & _ & _ & _ & _ & _ & _ & _ & _ & _ & S' & _).
    rewrite Hs in S.
    split; [exact Hret |]. split; [exact S |]. split; [exact Hret' |].
    exact S'.
Qed.

Lemma shipping_method_not_retrait_is_delivery_witness :
  exists b b',
    compute_quote scenario_engine 10 "Resin" "Standard" "Fragile" 2
                  "Retrait " false None = Ok b /\
    shipping_cost b = shipping_delivery scenario_engine /\
    compute_quote scenario_engine 10 "Resin" "Standard" "Fragile" 2
                  "retrait" false None = Ok b' /\
    shipping_cost b' = shipping_retrait scenario_engine.
Proof.
  refine (proj2 (proj2 (shipping_method_not_retrait_is_delivery
                          scenario_engine 10 "Resin" "Standard" "Fragile" 2
                          "Retrait " false None _)) _ _ _).
  - intros H. discriminate H.
  - eexists. reflexivity.
  - vm_compute. reflexivity.
  - intros l s Hl. discriminate Hl.
Defined.

(** C9 as stated fails: a call with a shipping method other than "retrait"
    does raise, when the material is unknown and when the stored speed is
    zero. *)
Lemma delivery_call_raises_for_other_reasons :
  "livraison"%string <> "retrait"%string /\
  compute_quote scenario_engine 10 "Nylon" "Standard" "Fragile" 1
                "livraison" false None
  = Raise (ValueError "Unknown material: Nylon") /\
  compute_quote zero_speed_engine 10 "Resin" "Standard" "Fragile" 1
                "livraison" false (Some 100)
  = Raise ZeroDivisionError.
Proof.
  split; [apply String.eqb_neq; reflexivity |].
  split; reflexivity.
Qed.

Example misspelled_shipping_costs_delivery :
  shipping_cost <$>
    (match compute_quote scenario_engine 10 "Resin" "Standard" "Fragile" 2
                         "retriat" false None with
     | Ok b => Some b | Raise _ => None end)
  = Some 12.
Proof. reflexivity. Qed.

(** ** Painting *)

(** C10. [add_painting] does not change the outcome, and every returned
    breakdown has painting cost 0. *)
Theorem add_painting_has_no_effect (self : QuoteEngine.t) (v : Q)
    (m tp ty : string) (q : Z) (sh : string) (ap : bool) (L : option Q) :
  compute_quote self v m tp ty q sh true L
  = compute_quote self v m tp ty q sh false L /\
  match compute_quote self v m tp ty q sh ap L with
  | Ok b => painting_cost b = 0
  | Raise _ => True
  end.
Proof.
  split; [reflexivity |].
  destruct (compute_quote_outcome self v m tp ty q sh ap L)
    as [Hnone | mat Hmat Hover | mat e Hmat Hfit Hfail
        | mat hours b Hmat Hfit Hok Hfields];
    [exact I | exact I | exact I |].
  unfold quote_fields in Hfields. tauto.
Qed.

(** ** Monotonicity in the quantity *)

Section Monotone.

Lemma Qmult_le_mono_nonneg a b c d :
  0 <= a -> a <= b -> 0 <= c -> c <= d -> a * c <= b * d.
Proof. intros. nra. Qed.

Lemma Qmult_le_r_nonneg a b c : a <= b -> 0 <= c -> a * c <= b * c.
Proof. intros. nra. Qed.

Lemma Qdiv_nonneg a b : 0 <= a -> 0 <= b -> 0 <= a / b.
Proof.
  intros Ha Hb. unfold Qdiv.
  apply Qmult_le_0_compat; [exact Ha | apply Qinv_le_0_compat; exact Hb].
Qed.

Lemma nondecreasing_from_inv dflt t f table :
  nondecreasing_from dflt ((t, f) :: table) ->
  dflt <= f /\ nondecreasing_from f table.
Proof.
  unfold nondecreasing_from. simpl. intros Hs.
  inversion Hs as [| ? ? Hrest Hhd]; subst.
  inversion Hhd; subst. split; assumption.
Qed.

(** A scan never ends below its starting value. *)
Lemma tier_scan_ge_acc table :
  forall acc v, nondecreasing_from acc table -> acc <= tier_scan table v acc.
Proof.
  induction table as [| [t f] table IH]; intros acc v Hnd; simpl.
  - lra.
  - apply nondecreasing_from_inv in Hnd. destruct Hnd as [Hle Hnd].
    destruct (Qle_bool t v); [| lra].
    specialize (IH f v Hnd). lra.
Qed.

(** A larger volume passes at least as many tiers. *)
Lemma tier_scan_mono table :
  forall acc1 acc2 v1 v2,
    v1 <= v2 -> acc1 <= acc2 -> nondecreasing_from acc2 table ->
    tier_scan table v1 acc1 <= tier_scan table v2 acc2.
Proof.
  induction table as [| [t f] table IH]; intros acc1 acc2 v1 v2 Hv Hacc Hnd;
    simpl.
  - exact Hacc.
  - apply nondecreasing_from_inv in Hnd. destruct Hnd as [Hle Hnd].
    destruct (Qle_bool t v1) eqn:H1, (Qle_bool t v2) eqn:H2.
    + apply IH; [exact Hv | lra | exact Hnd].
    + apply Qle_bool_iff in H1.
      assert (t <= v2) as H2' by lra.
      apply Qle_bool_iff in H2'. congruence.
    + pose proof (tier_scan_ge_acc table f v2 Hnd). lra.
    + exact Hacc.
Qed.

Variable self : QuoteEngine.t.
Hypothesis Hnonneg : nonneg_config self.

Lemma type_factor_nonneg tp : 0 <= type_factor_of self tp.
Proof.
  unfold type_factor_of.
  destruct (type_pieces self !! tp) as [x |] eqn:Hx; [| lra].
  apply (map_Forall_lookup_1 _ _ _ _ (nonneg_factors self Hnonneg) Hx).
Qed.

Lemma bag_price_nonneg ty : 0 <= bag_price_of self ty.
Proof.
  unfold bag_price_of.
  destruct (typologies self !! ty) as [x |] eqn:Hx; [| lra].
  apply (map_Forall_lookup_1 _ _ _ _ (nonneg_bag_prices self Hnonneg) Hx).
Qed.

Lemma support_percent_nonneg m : 0 <= support_percent_of self m.
Proof.
  unfold support_percent_of.
  destruct (material_support_percent self !! m) as [x |] eqn:Hx; [| lra].
  apply (map_Forall_lookup_1 _ _ _ _ (nonneg_support_percent self Hnonneg) Hx).
Qed.

(** The machine time does not decrease with the volume, and is
    non-negative when the largest dimension is. *)
Lemma machine_time_mono m L vws1 vws2 tf h1 h2 :
  0 <= vws1 -> vws1 <= vws2 -> 0 <= tf ->
  machine_time self m L vws1 tf = Ok h1 ->
  machine_time self m L vws2 tf = Ok h2 ->
  h1 <= h2 /\ ((forall l, L = Some l -> 0 <= l) -> 0 <= h1).
Proof.
  intros H0 Hle Htf H1 H2.
  pose proof (nonneg_machine_time_per_ml self Hnonneg) as Hrate.
  pose proof (nonneg_time_factor self Hnonneg) as Htfac.
  destruct L as [l |].
  - assert (h1 = h2) as <-.
    { unfold machine_time in H1, H2. rewrite H1 in H2. congruence. }
    split; [lra |]. intros Hl. specialize (Hl l eq_refl).
    assert (0 <= l * time_factor self) as Hlt
      by (apply Qmult_le_0_compat; assumption).
    destruct (material_print_speed self !! m) as [s |] eqn:Hs.
    + pose proof (map_Forall_lookup_1 _ _ _ _
                    (nonneg_print_speed self Hnonneg) Hs) as Hspeed.
      simpl in Hspeed.
      destruct (rounds_to_zero (s / 10)) eqn:Hz.
      * rewrite (machine_time_zero_speed self m l s _ _ Hs Hz) in H1.
        discriminate.
      * rewrite (machine_time_dimension self m l s _ _ Hs Hz) in H1.
        injection H1 as <-.
        apply float_quotient_nonneg; [| lra].
        apply float_quotient_nonneg; [exact Hlt |].
        apply Qdiv_nonneg; lra.
    + rewrite (machine_time_default_speed self m l _ _ Hs) in H1.
      injection H1 as <-.
      apply float_quotient_nonneg; [| lra].
      apply float_quotient_nonneg; [exact Hlt | lra].
  - rewrite machine_time_volume in H1, H2.
    injection H1 as <-. injection H2 as <-.
    split.
    + apply Qmult_le_r_nonneg; [| exact Htf].
      apply Qmult_le_r_nonneg; assumption.
    + intros _. repeat apply Qmult_le_0_compat; assumption.
Qed.

End Monotone.

(** C2, as the code has it.  For a volume and a configuration that are
    non-negative, an order of moderate size and quantities [q1 <= q2]: the
    two calls fail alike or both return; the material, machine, base,
    post, finish, painting, before-markup, bag and shipping costs do not
    decrease; the packaging cost does not decrease when the packaging
    prices never decrease along their table (from the default 0); the
    markup factor does not decrease when the markup factors never decrease
    along theirs (from the default 1), nor does the plate price when, in
    addition, the largest dimension, if given, is non-negative; and the
    totals and the VAT do not decrease when all of this holds. *)
Theorem compute_quote_monotone_in_quantity (self : QuoteEngine.t) (v : Q)
    (m tp ty : string) (sh : string) (ap : bool) (L : option Q) (q1 q2 : Z) :
  0 <= v -> nonneg_config self -> (q1 <= q2)%Z ->
  moderate_order self v q2 L ->
  match compute_quote self v m tp ty q1 sh ap L,
        compute_quote self v m tp ty q2 sh ap L with
  | Ok b1, Ok b2 =>
      direct_costs_le b1 b2 /\
      (nondecreasing_from 0 (packaging_table self) ->
       packaging_cost b1 <= packaging_cost b2) /\
      (nondecreasing_from 1 (markup_table self) ->
       markup_factor b1 <= markup_factor b2 /\
       ((forall l, L = Some l -> 0 <= l) ->
        price_ht_plate b1 <= price_ht_plate b2 /\
        (nondecreasing_from 0 (packaging_table self) -> totals_le b1 b2)))
  | Raise e1, Raise e2 => e1 = e2
  | _, _ => False
  end.
Proof.
  intros Hv Hnonneg Hq Hmoderate.
  pose proof (moderate_quantity_fits q2 (moderate_quantity _ _ _ _ Hmoderate))
    as Hfit2.
  assert (quantity_fits q1) as Hfit1
    by (unfold quantity_fits in *; lia).
  destruct (materials self !! m) as [mat |] eqn:Hmat.
  2:{ unfold compute_quote. rewrite Hmat. reflexivity. }
  destruct (known_material_outcome self v m tp ty q1 sh ap L mat Hmat)
    as [(h1 & b1 & Hret1 & _ & Hu1 & Ht1 & Hf1)
       | [(Hraise1 & _ & Hzero1) | (_ & Hover1)]];
    [| | contradiction];
  destruct (known_material_outcome self v m tp ty q2 sh ap L mat Hmat)
    as [(h2 & b2 & Hret2 & _ & Hu2 & Ht2 & Hf2)
       | [(Hraise2 & _ & Hzero2) | (_ & Hover2)]];
    try contradiction.
  4:{ rewrite Hraise1, Hraise2. reflexivity. }
  2:{ exfalso. apply (zero_speed_not_usable self m L Hzero2 Hu1). }
  2:{ exfalso. apply (zero_speed_not_usable self m L Hzero1 Hu2). }
  rewrite Hret1, Hret2.
  (* the clamped quantities *)
  pose proof (clamp_quantity_ge_1 q1) as Hn1.
  assert (clamp_quantity q1 <= clamp_quantity q2)%Z as Hn12
    by (rewrite !clamp_quantity_max; lia).
  rewrite Zle_Qle in Hn1. rewrite Zle_Qle in Hn12.
  unfold quote_fields in Hf1, Hf2. cbv zeta in Hf1, Hf2.
  revert Ht1 Ht2 Hf1 Hf2.
  generalize dependent (inject_Z (clamp_quantity q1)).
  generalize dependent (inject_Z (clamp_quantity q2)).
  intros n2 n1 Hn1 Hn12 Ht1 Ht2 Hf1 Hf2.
  change (inject_Z 1) with 1 in Hn1.
  (* the rates *)
  pose proof (support_percent_nonneg self Hnonneg m) as Hsp.
  pose proof (type_factor_nonneg self Hnonneg tp) as Htf.
  pose proof (bag_price_nonneg self Hnonneg ty) as Hbag.
  pose proof (map_Forall_lookup_1 _ _ _ _ (nonneg_prices self Hnonneg) Hmat)
    as Hprice. simpl in Hprice.
  pose proof (nonneg_post_rate self Hnonneg) as Hpost.
  pose proof (nonneg_finish_rate self Hnonneg) as Hfin.
  pose proof (nonneg_tva_rate self Hnonneg) as Htva.
  pose proof (nonneg_machine_hour_rate self Hnonneg) as Hmhr.
  assert (0 <= 1 + support_percent_of self m / 100) as Hk.
  { pose proof (Qdiv_nonneg _ 100 Hsp ltac:(lra)). lra. }
  assert (0 <= v * n1 /\ v * n1 <= v * n2) as [Heff0 Heff] by (split; nra).
  destruct Hf1 as (V1 & M1 & C1 & B1 & P1 & F1 & Pa1 & T1 & K1 & H1 & G1
                   & Bag1 & S1 & TH1 & VA1 & TT1 & _).
  destruct Hf2 as (V2 & M2 & C2 & B2 & P2 & F2 & Pa2 & T2 & K2 & H2 & G2
                   & Bag2 & S2 & TH2 & VA2 & TT2 & _).
  assert (0 <= volume_with_supports_ml b1 /\
          volume_with_supports_ml b1 <= volume_with_supports_ml b2)
    as [Hvws0 Hvws].
  { rewrite V1, V2. split.
    - apply Qmult_le_0_compat; assumption.
    - apply Qmult_le_r_nonneg; assumption. }
  rewrite <- V1 in Ht1. rewrite <- V2 in Ht2.
  destruct (machine_time_mono self Hnonneg m L _ _ _ h1 h2
              Hvws0 Hvws Htf Ht1 Ht2) as [Hh Hh0].
  assert (0 <= material_cost b1 /\ material_cost b1 <= material_cost b2)
    as [Hmc0 Hmc].
  { rewrite M1, M2. split.
    - repeat apply Qmult_le_0_compat; assumption.
    - repeat apply Qmult_le_r_nonneg; assumption. }
  assert (machine_cost b1 <= machine_cost b2) as Hmach
    by (rewrite C1, C2; apply Qmult_le_r_nonneg; assumption).
  assert (base_cost b1 <= base_cost b2) as Hbase
    by (rewrite B1, B2; lra).
  assert (post_cost b1 <= post_cost b2) as Hpc
    by (rewrite P1, P2; apply Qmult_le_r_nonneg; assumption).
  assert (finish_cost b1 <= finish_cost b2) as Hfc
    by (rewrite F1, F2; apply Qmult_le_r_nonneg; assumption).
  assert (total_cost_before_markup b1 <= total_cost_before_markup b2)
    as Htot by (rewrite T1, T2, Pa1, Pa2; lra).
  assert (bag_cost b1 <= bag_cost b2) as Hbc
    by (rewrite Bag1, Bag2; nra).
  assert (shipping_cost b1 <= shipping_cost b2) as Hsc
    by (rewrite S1, S2; lra).
  assert (nondecreasing_from 0 (packaging_table self) ->
          0 <= packaging_cost b1 /\ packaging_cost b1 <= packaging_cost b2)
    as Hpack.
  { intros Hpk. rewrite G1, G2. unfold _get_packaging_cost. split.
    - apply (tier_scan_ge_acc (packaging_table self) 0 (v * n1) Hpk).
    - apply tier_scan_mono; [exact Heff | lra | exact Hpk]. }
  split.
  { unfold direct_costs_le. rewrite Pa1, Pa2.
    repeat (split; [assumption || lra |]). assumption. }
  split; [intros Hpk; apply (Hpack Hpk) |].
  intros Hmk.
  assert (0 <= markup_factor b1 /\ markup_factor b1 <= markup_factor b2)
    as [Hmf0 Hmf].
  { rewrite K1, K2. unfold _get_markup_factor. split.
    - pose proof (tier_scan_ge_acc (markup_table self) 1 (v * n1) Hmk). lra.
    - apply tier_scan_mono; [exact Heff | lra | exact Hmk]. }
  split; [exact Hmf |].
  intros HL. specialize (Hh0 HL).
  assert (0 <= total_cost_before_markup b1) as Htot0.
  { assert (0 <= machine_cost b1) as Hmach0
      by (rewrite C1; apply Qmult_le_0_compat; assumption).
    assert (0 <= base_cost b1) as Hbase0 by (rewrite B1; lra).
    assert (0 <= post_cost b1) as Hpc0
      by (rewrite P1; apply Qmult_le_0_compat; assumption).
    assert (0 <= finish_cost b1) as Hfc0
      by (rewrite F1; apply Qmult_le_0_compat; assumption).
    rewrite T1, Pa1. lra. }
  assert (price_ht_plate b1 <= price_ht_plate b2) as Hpl
    by (rewrite H1, H2; apply Qmult_le_mono_nonneg; assumption).
  split; [exact Hpl |].
  intros Hpk. destruct (Hpack Hpk) as [Hpack0 Hpackle].
  assert (total_ht b1 <= total_ht b2) as Hth by (rewrite TH1, TH2; lra).
  assert (vat b1 <= vat b2) as Hvat
    by (rewrite VA1, VA2; apply Qmult_le_r_nonneg; assumption).
  unfold totals_le. rewrite TT1, TT2.
  split; [exact Hth |]. split; [exact Hvat | lra].
Qed.

Section Engines.

Local Ltac number_facts :=
  repeat match goal with
         | |- map_Forall _ (<[ _ := _ ]> _) => apply map_Forall_insert_2
         | |- map_Forall _ ∅ => apply map_Forall_empty
         | |- List.Forall _ (_ :: _) => apply List.Forall_cons
         | |- List.Forall _ [] => apply List.Forall_nil
         end;
  try (right; vm_compute; intros H; discriminate H);
  try (unfold moderate; vm_compute; intros H; discriminate H).

Lemma scenario_engine_nonneg : nonneg_config scenario_engine.
Proof. constructor; simpl; number_facts. Qed.

Lemma discount_engine_nonneg : nonneg_config discount_engine.
Proof. constructor; simpl; number_facts. Qed.

Lemma scenario_engine_moderate : moderate_config scenario_engine.
Proof. constructor; simpl; number_facts. Qed.

End Engines.

Lemma compute_quote_monotone_in_quantity_witness :
  exists b1 b2,
    compute_quote scenario_engine 10 "Resin" "Standard" "Fragile" 2
                  "livraison" false (Some 120) = Ok b1 /\
    compute_quote scenario_engine 10 "Resin" "Standard" "Fragile" 7
                  "livraison" false (Some 120) = Ok b2 /\
    direct_costs_le b1 b2 /\ packaging_cost b1 <= packaging_cost b2 /\
    plate_price_le b1 b2 /\ totals_le b1 b2.
Proof.
  assert (moderate_order scenario_engine 10 7 (Some 120)) as Hmoderate.
  { constructor.
    - exact scenario_engine_moderate.
    - vm_compute. intros H. discriminate H.
    - vm_compute. intros H. discriminate H.
    - intros l Hl. injection Hl as <-. vm_compute. intros H. discriminate H. }
  pose proof (compute_quote_monotone_in_quantity scenario_engine 10 "Resin"
                "Standard" "Fragile" "livraison" false (Some 120) 2 7
                ltac:(lra) scenario_engine_nonneg ltac:(lia) Hmoderate) as H.
  destruct (compute_quote scenario_engine 10 "Resin" "Standard" "Fragile" 2
                          "livraison" false (Some 120)) as [b1 | e1] eqn:H1;
    [| vm_compute in H1; discriminate H1].
  destruct (compute_quote scenario_engine 10 "Resin" "Standard" "Fragile" 7
                          "livraison" false (Some 120)) as [b2 | e2] eqn:H2;
    [| vm_compute in H2; discriminate H2].
  exists b1, b2. split; [reflexivity |]. split; [reflexivity |].
  destruct H as (Hdirect & Hpack & Hmarkup).
  assert (nondecreasing_from 0 (packaging_table scenario_engine)) as Hpk
    by (repeat constructor; simpl; lra).
  assert (nondecreasing_from 1 (markup_table scenario_engine)) as Hmk
    by (repeat constructor; simpl; lra).
  destruct (Hmarkup Hmk) as (Hfactor & Hplate).
  destruct Hplate as (Hprice & Htotals).
  { intros l Hl. injection Hl as <-. lra. }
  split; [exact Hdirect |]. split; [exact (Hpack Hpk) |].
  split; [split; assumption | exact (Htotals Hpk)].
Defined.

(** C2 as stated fails: every number of [discount_engine] is non-negative,
    yet with volume 30 the plate price, the totals and the VAT fall when
    the quantity goes from 1 to 2, the markup factor dropping from 2 to
    0.5 at 50 ml. *)
Lemma plate_price_decreases_across_a_discount_tier :
  nonneg_config discount_engine /\ 0 <= 30 /\ (1 <= 2)%Z /\
  exists b1 b2,
    compute_quote discount_engine 30 "Resin" "Standard" "Fragile" 1
                  "retrait" false None = Ok b1 /\
    compute_quote discount_engine 30 "Resin" "Standard" "Fragile" 2
                  "retrait" false None = Ok b2 /\
    price_ht_plate b1 == 60 /\ price_ht_plate b2 == 30 /\
    ~ price_ht_plate b1 <= price_ht_plate b2 /\
    ~ total_ht b1 <= total_ht b2 /\
    ~ total_ttc b1 <= total_ttc b2.
Proof.
  split; [exact discount_engine_nonneg |].
  split; [lra |]. split; [lia |].
  eexists. eexists.
  split; [vm_compute; reflexivity |].
  split; [vm_compute; reflexivity |].
  repeat split; try reflexivity;
    intros H; vm_compute in H; apply H; reflexivity.
Qed.

(** Rising markup factors do not make the plate price monotone when the
    largest dimension is negative: the machine cost is then negative and a
    higher factor multiplies a negative total. *)
Example negative_dimension_breaks_monotonicity :
  exists b1 b2,
    compute_quote surcharge_engine 30 "Resin" "Standard" "Fragile" 1
                  "retrait" false (Some (-360000)) = Ok b1 /\
    compute_quote surcharge_engine 30 "Resin" "Standard" "Fragile" 2
                  "retrait" false (Some (-360000)) = Ok b2 /\
    price_ht_plate b1 == -670 /\ price_ht_plate b2 == -1280.
Proof.
  eexists. eexists.
  split; [vm_compute; reflexivity |].
  split; [vm_compute; reflexivity |].
  split; reflexivity.
Qed.

(** A quantity beyond the range of a float makes the larger order fail
    where the smaller one returns. *)
Example larger_order_overflows :
  (1 <= 10 ^ 400)%Z /\
  (exists b1,
     compute_quote scenario_engine 10 "Resin" "Standard" "Fragile" 1
                   "retrait" false None = Ok b1) /\
  compute_quote scenario_engine 10 "Resin" "Standard" "Fragile" (10 ^ 400)
                "retrait" false None = Raise OverflowError.
Proof.
  split; [vm_compute; intros H; discriminate H |].
  split; [eexists |]; vm_compute; reflexivity.
Qed.

(** * The STL volume extractor *)

(** ** Format detection *)

Section Detection.

Lemma byte_lower_to_N b :
  Byte.to_N (byte_lower b)
  = if ((65 <=? Byte.to_N b) && (Byte.to_N b <=? 90))%N
    then (Byte.to_N b + 32)%N else Byte.to_N b.
Proof. destruct b; reflexivity. Qed.

Lemma to_N_inj b c : Byte.to_N b = Byte.to_N c -> b = c.
Proof.
  intros H. apply (f_equal Byte.of_N) in H.
  rewrite !Byte.of_to_N in H. congruence.
Qed.

Lemma byte_lower_matches b c :
  lowercase_letter c -> (byte_lower b = c <-> letter_matches b c).
Proof.
  intros [Hlo Hhi]. unfold letter_matches. split.
  - intros H. apply (f_equal Byte.to_N) in H. rewrite byte_lower_to_N in H.
    destruct ((65 <=? Byte.to_N b) && (Byte.to_N b <=? 90))%N.
    + right. auto.
    + left. apply to_N_inj. exact H.
  - intros H. apply to_N_inj. rewrite byte_lower_to_N.
    destruct ((65 <=? Byte.to_N b) && (Byte.to_N b <=? 90))%N eqn:Hup.
    + apply andb_true_iff in Hup. destruct Hup as [H65 H90].
      apply N.leb_le in H65. apply N.leb_le in H90.
      destruct H as [-> | [H _]]; [lia | exact H].
    + apply andb_false_iff in Hup.
      destruct H as [-> | [H _]]; [reflexivity |].
      destruct Hup as [Hup | Hup]; apply N.leb_gt in Hup; lia.
Qed.

Lemma bytes_eqb_eq a b : bytes_eqb a b = true <-> a = b.
Proof.
  revert b. induction a as [| x a IH]; intros [| y b]; simpl;
    try (split; [discriminate | discriminate]); [tauto |].
  rewrite andb_true_iff, IH. split.
  - intros [Hxy ->]. apply Byte.byte_dec_bl in Hxy. congruence.
  - intros H. injection H as -> ->. split; [apply Byte.byte_dec_lb |];
      reflexivity.
Qed.

Lemma starts_with_app needle hay :
  starts_with needle hay = true <-> exists post, hay = needle ++ post.
Proof.
  revert hay. induction needle as [| x needle IH]; intros hay; simpl.
  - split; [intros _; exists hay; reflexivity | reflexivity].
  - destruct hay as [| y hay].
    + split; [discriminate | intros [post H]; discriminate].
    + rewrite andb_true_iff, IH. split.
      * intros [Hxy [post ->]]. apply Byte.byte_dec_bl in Hxy. subst y.
        exists post. reflexivity.
      * intros [post H]. injection H as -> ->.
        split; [apply Byte.byte_dec_lb; reflexivity | exists post; reflexivity].
Qed.

Lemma bytes_in_app needle hay :
  bytes_in needle hay = true <-> exists pre post, hay = pre ++ needle ++ post.
Proof.
  induction hay as [| y hay IH]; simpl.
  - rewrite orb_false_r, starts_with_app. split.
    + intros [post H]. exists [], post. exact H.
    + intros [pre [post H]]. destruct pre as [| z pre]; [| discriminate].
      exists post. exact H.
  - rewrite orb_true_iff, starts_with_app, IH. split.
    + intros [[post H] | [pre [post H]]].
      * exists [], post. exact H.
      * exists (y :: pre), post. simpl. rewrite H. reflexivity.
    + intros [pre [post H]]. destruct pre as [| z pre].
      * left. exists post. exact H.
      * right. injection H as _ H. exists pre, post. exact H.
Qed.

Lemma map_lower_matches marker p :
  List.Forall lowercase_letter marker ->
  (map byte_lower p = marker <-> Forall2 letter_matches p marker).
Proof.
  intros Hlow. revert p.
  induction Hlow as [| c marker Hc Hlow IH]; intros p.
  - split.
    + intros H. destruct p; [constructor | discriminate].
    + intros H. inversion H. reflexivity.
  - split.
    + intros H. destruct p as [| b p]; [discriminate |].
      simpl in H. injection H as Hb Hp. constructor.
      * apply byte_lower_matches; assumption.
      * apply IH. exact Hp.
    + intros H. inversion H as [| b ? p' ? Hb Hp]; subst. simpl.
      f_equal; [apply byte_lower_matches; assumption | apply IH; exact Hp].
Qed.

Lemma solid_lowercase : List.Forall lowercase_letter solid.
Proof. repeat constructor; vm_compute; discriminate. Qed.

Lemma Forall2_same_length {A B} (R : A -> B -> Prop) l l' :
  Forall2 R l l' -> length l = length l'.
Proof. induction 1; simpl; congruence. Qed.

(** The test of the code says what the specification words. *)
Lemma is_ascii_text_format_marked data :
  is_ascii data = true <-> text_format_marked data.
Proof.
  unfold is_ascii, text_format_marked, begins_ignoring_case, occurs_within,
    slice.
  rewrite andb_true_iff, bytes_eqb_eq, bytes_in_app. simpl skipn.
  rewrite (map_lower_matches solid _ solid_lowercase).
  change (5 - 0)%nat with 5%nat. change (200 - 0)%nat with 200%nat.
  split; intros [Hbegin Hin]; (split; [| exact Hin]).
  - exists (firstn 5 data), (skipn 5 data).
    split; [symmetry; apply firstn_skipn | exact Hbegin].
  - destruct Hbegin as (p & rest & -> & Hp).
    pose proof (Forall2_same_length _ _ _ Hp) as Hlen.
    change (length solid) with 5%nat in Hlen.
    change (skipn 0 (p ++ rest)) with (p ++ rest).
    assert (firstn 5 (p ++ rest) = p) as ->; [| exact Hp].
    rewrite <- Hlen. rewrite List.firstn_app, Nat.sub_diag, List.firstn_all.
    simpl. apply List.app_nil_r.
Qed.

End Detection.

(** C8. A payload is parsed as text exactly when it begins, letter case
    aside, with "solid" and "facet" occurs within its first 200 bytes;
    every other payload is parsed as the binary format. *)
Theorem format_detection (unpack_f32 : list byte -> Q)
    (text_vertices : list byte -> list vertex) (data : list byte) :
  (is_ascii data = true <-> text_format_marked data) /\
  (text_format_marked data ->
   compute_volume_and_bbox unpack_f32 text_vertices data
   = text_branch text_vertices data) /\
  (~ text_format_marked data ->
   compute_volume_and_bbox unpack_f32 text_vertices data
   = binary_branch unpack_f32 data).
Proof.
  pose proof (is_ascii_text_format_marked data) as Hiff.
  split; [exact Hiff |]. unfold compute_volume_and_bbox. split.
  - intros H. apply Hiff in H. rewrite H. reflexivity.
  - intros H. destruct (is_ascii data); [| reflexivity].
    exfalso. apply H, Hiff. reflexivity.
Qed.

Example mixed_case_solid_is_text : is_ascii mixed_case_payload = true.
Proof. reflexivity. Qed.

Example uppercase_facet_is_binary :
  is_ascii (list_byte_of_string "solid cube FACET normal 0 0 1") = false.
Proof. reflexivity. Qed.

Lemma format_detection_witness :
  compute_volume_and_bbox (fun _ => 0) (fun _ => []) mixed_case_payload
  = text_branch (fun _ => []) mixed_case_payload.
Proof.
  apply (proj1 (proj2 (format_detection (fun _ => 0) (fun _ => [])
                         mixed_case_payload))).
  apply is_ascii_text_format_marked. reflexivity.
Defined.

(** ** Degenerate binary payloads *)

(** C7. A payload classified as binary and shorter than 84 bytes yields
    volume 0 and the box (0, 0, 0). *)
Theorem short_binary_payload_is_zero (unpack_f32 : list byte -> Q)
    (text_vertices : list byte -> list vertex) (data : list byte) :
  is_ascii data = false -> (length data < 84)%nat ->
  compute_volume_and_bbox unpack_f32 text_vertices data = (0, (0, 0, 0)).
Proof.
  intros Hbin Hlen. unfold compute_volume_and_bbox, binary_branch.
  rewrite Hbin. apply Nat.ltb_lt in Hlen. rewrite Hlen. reflexivity.
Qed.

Lemma short_binary_payload_is_zero_witness :
  compute_volume_and_bbox (fun _ => 1) (fun _ => [])
    (List.repeat x2a 83) = (0, (0, 0, 0)).
Proof.
  apply short_binary_payload_is_zero.
  - reflexivity.
  - simpl. lia.
Defined.

(** A short payload that carries the text marker is not a binary one: it
    goes through the text branch. *)
Example short_text_payload_is_text :
  is_ascii (list_byte_of_string "solid facet") = true.
Proof. reflexivity. Qed.

(** ** Winding order *)

Section Winding.

(** The laws of signs that the reversal rests on.  Each holds of binary64
    as it does of the rationals, rounding to nearest being symmetric
    about zero; with the commutativity of the product they are all that
    the proof below uses. *)
Lemma sub_swap a b : b - a == - (a - b).
Proof. ring. Qed.

Lemma mul_opp_r a b : a * - b == - (a * b).
Proof. ring. Qed.

Lemma add_opp a b : - a + - b == - (a + b).
Proof. ring. Qed.

Lemma div_opp a c : - a / c == - (a / c).
Proof. unfold Qdiv. ring. Qed.

(** Swapping the second and third vertices exchanges the two factors of
    the cross product: each of its components changes sign, and with them
    the dot product and its sixth. *)
Lemma reversed_volume f f' :
  reversed f f' -> facet_volume f' == - facet_volume f.
Proof.
  destruct f as [[[[x1 y1] z1] [[x2 y2] z2]] [[x3 y3] z3]].
  unfold reversed. intros ->.
  unfold facet_volume, signed_tetrahedron_volume. cbv beta iota zeta.
  rewrite (Qmult_comm y3 z2), (Qmult_comm z3 y2), (Qmult_comm z3 x2),
    (Qmult_comm x3 z2), (Qmult_comm x3 y2), (Qmult_comm y3 x2).
  rewrite (sub_swap (y2 * z3) (z2 * y3)), (sub_swap (z2 * x3) (x2 * z3)),
    (sub_swap (x2 * y3) (y2 * x3)).
  rewrite !mul_opp_r, !add_opp, div_opp. reflexivity.
Qed.

Lemma opposite_see_vertex st st' v v' :
  opposite st st' -> opposite (see_vertex st v) (see_vertex st' v').
Proof. intros H. exact H. Qed.

Lemma opposite_add_volume st st' d d' :
  opposite st st' -> d' == - d ->
  opposite (add_volume st d) (add_volume st' d').
Proof.
  unfold opposite, add_volume. simpl. intros H Hd. rewrite H, Hd. ring.
Qed.

Lemma binary_loop_opposite n fs fs' :
  Forall2 reversed fs fs' ->
  forall st st' count,
    opposite st st' ->
    opposite (binary_loop n fs st count) (binary_loop n fs' st' count).
Proof.
  induction 1 as [| f f' fs fs' Hf Hfs IH]; intros st st' count Hst.
  - exact Hst.
  - pose proof (reversed_volume f f' Hf) as Hvol.
    destruct f as [[v1 v2] v3], f' as [[w1 w2] w3]. simpl.
    assert (opposite
              (add_volume (see_vertex (see_vertex (see_vertex st v1) v2) v3)
                          (signed_tetrahedron_volume v1 v2 v3))
              (add_volume (see_vertex (see_vertex (see_vertex st' w1) w2) w3)
                          (signed_tetrahedron_volume w1 w2 w3))) as Hnext.
    { apply opposite_add_volume; [| exact Hvol].
      repeat apply opposite_see_vertex. exact Hst. }
    destruct (n <=? count + 1)%Z; [exact Hnext | apply IH; exact Hnext].
Qed.

Lemma ascii_loop_opposite fs fs' :
  Forall2 reversed fs fs' ->
  forall st st',
    opposite st st' ->
    opposite (ascii_loop (vertices_of fs) st [])
             (ascii_loop (vertices_of fs') st' []).
Proof.
  induction 1 as [| f f' fs fs' Hf Hfs IH]; intros st st' Hst.
  - exact Hst.
  - pose proof (reversed_volume f f' Hf) as Hvol.
    destruct f as [[v1 v2] v3], f' as [[w1 w2] w3]. simpl.
    apply IH. apply opposite_add_volume; [| exact Hvol].
    repeat apply opposite_see_vertex. exact Hst.
Qed.

Lemma opposite_finish st st' :
  opposite st st' -> fst (finish st') == fst (finish st).
Proof.
  unfold opposite, finish. simpl. intros H. rewrite H, Qabs_opp. reflexivity.
Qed.

Lemma opposite_init : opposite init_state init_state.
Proof. unfold opposite. simpl. reflexivity. Qed.

End Winding.

(** C5, as the code has it.  Reversing the winding of every facet by
    swapping its second and third vertices negates each facet's signed
    tetrahedron volume, hence the accumulated sum, in the binary loop and
    in the text loop alike; the returned volume, the absolute value of the
    sum divided by 1000, is unchanged. *)
Theorem winding_reversal_preserves_volume (fs fs' : list facet) :
  Forall2 reversed fs fs' ->
  Forall2 (fun f f' => facet_volume f' == - facet_volume f) fs fs' /\
  (forall num_triangles,
     total_volume_mm3 (binary_loop num_triangles fs' init_state 0)
     == - total_volume_mm3 (binary_loop num_triangles fs init_state 0) /\
     fst (extract_binary num_triangles fs')
     == fst (extract_binary num_triangles fs) /\
     fst (extract_binary num_triangles fs)
     == Qabs (total_volume_mm3 (binary_loop num_triangles fs init_state 0))
        / 1000) /\
  (total_volume_mm3 (ascii_loop (vertices_of fs') init_state [])
   == - total_volume_mm3 (ascii_loop (vertices_of fs) init_state []) /\
   fst (extract_ascii (vertices_of fs'))
   == fst (extract_ascii (vertices_of fs)) /\
   fst (extract_ascii (vertices_of fs))
   == Qabs (total_volume_mm3 (ascii_loop (vertices_of fs) init_state []))
      / 1000) /\
  (forall unpack_f32 text_vertices data data',
     is_ascii data = is_ascii data' ->
     length data = length data' ->
     slice 80 84 data = slice 80 84 data' ->
     (if is_ascii data
      then text_vertices data = vertices_of fs /\
           text_vertices data' = vertices_of fs'
      else parse_binary_facets unpack_f32 (skipn 84 data) = fs /\
           parse_binary_facets unpack_f32 (skipn 84 data') = fs') ->
     fst (compute_volume_and_bbox unpack_f32 text_vertices data')
     == fst (compute_volume_and_bbox unpack_f32 text_vertices data)).
Proof.
  intros Hrev.
  pose proof (fun n => binary_loop_opposite n fs fs' Hrev
                         init_state init_state 0%Z opposite_init) as Hbin.
  pose proof (ascii_loop_opposite fs fs' Hrev
                init_state init_state opposite_init) as Htxt.
  split; [| split; [| split]].
  - induction Hrev as [| f f' fs fs' Hf Hfs IH]; constructor.
    + apply reversed_volume. exact Hf.
    + apply IH.
      * intros n. apply binary_loop_opposite; [exact Hfs | apply opposite_init].
      * apply ascii_loop_opposite; [exact Hfs | apply opposite_init].
  - intros n. split; [exact (Hbin n) |]. split; [| reflexivity].
    apply opposite_finish. exact (Hbin n).
  - split; [exact Htxt |]. split; [| reflexivity].
    apply opposite_finish. exact Htxt.
  - intros unpack_f32 text_vertices data data' Hfmt Hlen Hcount Hfacets.
    unfold compute_volume_and_bbox. rewrite <- Hfmt.
    destruct (is_ascii data).
    + destruct Hfacets as [Hd Hd']. unfold text_branch. rewrite Hd, Hd'.
      apply opposite_finish. exact Htxt.
    + destruct Hfacets as [Hd Hd']. unfold binary_branch.
      rewrite <- Hlen, <- Hcount, Hd, Hd'.
      destruct (length data <? 84)%nat; [reflexivity |].
      apply opposite_finish. apply Hbin.
Qed.

Lemma winding_reversal_preserves_volume_witness :
  fst (extract_binary 2
         [((1, 0, 0), (0, 0, 1), (0, 1, 0));
          ((0, 0, 3), (0, 2, 0), (2, 0, 0))])
  == fst (extract_binary 2
            [((1, 0, 0), (0, 1, 0), (0, 0, 1));
             ((0, 0, 3), (2, 0, 0), (0, 2, 0))]).
Proof.
  refine (proj1 (proj2 (proj1 (proj2
            (winding_reversal_preserves_volume
               [((1, 0, 0), (0, 1, 0), (0, 0, 1));
                ((0, 0, 3), (2, 0, 0), (0, 2, 0))]
               [((1, 0, 0), (0, 0, 1), (0, 1, 0));
                ((0, 0, 3), (0, 2, 0), (2, 0, 0))] _)) 2%Z))).
  constructor; [reflexivity |].
  constructor; [reflexivity | constructor].
Defined.

(** C5 as stated fails on the code: swapping two vertices of a facet is
    not always a swap of the second and third.  In binary64, swapping the
    first two vertices of [sliver] changes the volume that the text branch
    returns, from 5e-07 to the next float, 5.000000000000001e-07; and
    swapping the first two vertices of [wedge] changes the volume that the
    binary branch returns.  The products of the three coordinates are then
    taken in another order, and rounded otherwise. *)
Lemma swapping_the_first_two_vertices_changes_the_volume :
  (swapped_two Facets64.sliver Facets64.sliver_first_two_swapped /\
   PrimFloat.ltb
     (fst (Binary64.extract_ascii (Facets64.vertices_of Facets64.sliver)))
     (fst (Binary64.extract_ascii
             (Facets64.vertices_of Facets64.sliver_first_two_swapped)))
   = true) /\
  (swapped_two Facets64.wedge Facets64.wedge_first_two_swapped /\
   PrimFloat.ltb
     (fst (Binary64.extract_binary 1 [Facets64.wedge]))
     (fst (Binary64.extract_binary 1 [Facets64.wedge_first_two_swapped]))
   = true).
Proof.
  split; (split; [right; right; reflexivity | vm_compute; reflexivity]).
Qed.

(** On the same facets the swap of the last two vertices leaves the
    volume as it is, in binary64 as in the rationals. *)
Example swapping_the_last_two_vertices_keeps_the_volume :
  fst (Binary64.extract_ascii
         (Facets64.vertices_of Facets64.sliver_last_two_swapped))
  = fst (Binary64.extract_ascii (Facets64.vertices_of Facets64.sliver)) /\
  fst (Binary64.extract_binary 1 [Facets64.wedge_last_two_swapped])
  = fst (Binary64.extract_binary 1 [Facets64.wedge]).
Proof. split; vm_compute; reflexivity. Qed.

(** The cube of side 10 mm holds 1 ml in a box of 10 x 10 x 10, through
    either loop. *)
Example cube_volume_and_box :
  same_summary (extract_binary 12 cube_facets) (1, (10, 10, 10)) /\
  same_summary (extract_ascii (vertices_of cube_facets)) (1, (10, 10, 10)).
Proof. vm_compute. repeat split; reflexivity. Qed.

Example reversed_tetrahedron_face :
  facet_volume ((1, 0, 0), (0, 1, 0), (0, 0, 1)) == 1 / 6 /\
  facet_volume ((1, 0, 0), (0, 0, 1), (0, 1, 0)) == - (1 / 6).
Proof. split; reflexivity. Qed.

(** * Further properties of the extractor *)

(** ** The returned summary *)

Section Summary.

Lemma Qle_bool_false a b : Qle_bool a b = false -> b < a.
Proof.
  intros H. apply Qnot_le_lt. intros Hle.
  apply Qle_bool_iff in Hle. congruence.
Qed.

Lemma extent_nonneg mx mn : 0 <= extent mx mn.
Proof.
  unfold extent. destruct mx as [a |], mn as [b |]; try lra.
  destruct (Qle_bool a b) eqn:E; [lra |].
  apply Qle_bool_false in E. lra.
Qed.

(** Three numbers sorted: the list has the three of them, in descending
    order. *)
Lemma sorted_desc_three a b c :
  exists d0 d1 d2,
    sorted_desc [a; b; c] = [d0; d1; d2] /\
    d2 <= d1 /\ d1 <= d0 /\
    (a <= d0 /\ b <= d0 /\ c <= d0) /\
    (List.Forall (fun d => d = a \/ d = b \/ d = c) [d0; d1; d2]).
Proof.
  unfold sorted_desc. simpl.
  repeat match goal with
         | |- context [Qle_bool ?x ?y] =>
             destruct (Qle_bool x y) eqn:?; simpl
         end;
    repeat match goal with
           | H : Qle_bool _ _ = true |- _ => apply Qle_bool_iff in H
           | H : Qle_bool _ _ = false |- _ => apply Qle_bool_false in H
           end;
    do 3 eexists; (split; [reflexivity |]);
    (split; [lra |]); (split; [lra |]);
    (split; [repeat split; lra |]);
    repeat (apply List.Forall_cons; [tauto |]); apply List.Forall_nil.
Qed.

Lemma finish_nonnegative_descending st :
  let '(v, (d0, d1, d2)) := finish st in
  0 <= v /\ 0 <= d2 /\ d2 <= d1 /\ d1 <= d0.
Proof.
  unfold finish.
  set (ex := extent (max_x (bbox st)) (min_x (bbox st))).
  set (ey := extent (max_y (bbox st)) (min_y (bbox st))).
  set (ez := extent (max_z (bbox st)) (min_z (bbox st))).
  destruct (sorted_desc_three ex ey ez)
    as (d0 & d1 & d2 & -> & H21 & H10 & _ & Hin).
  simpl. split.
  - apply Qdiv_nonneg; [apply Qabs_nonneg | lra].
  - repeat split; try assumption.
    inversion Hin as [| ? ? _ Hin1]; subst.
    inversion Hin1 as [| ? ? _ Hin2]; subst.
    inversion Hin2 as [| ? ? H2 _]; subst.
    pose proof (extent_nonneg (max_x (bbox st)) (min_x (bbox st))).
    pose proof (extent_nonneg (max_y (bbox st)) (min_y (bbox st))).
    pose proof (extent_nonneg (max_z (bbox st)) (min_z (bbox st))).
    destruct H2 as [-> | [-> | ->]]; assumption.
Qed.

End Summary.

(** X1. Whatever the payload, the three returned dimensions are
    non-negative and in descending order. *)
Theorem dimensions_nonnegative_and_descending (unpack_f32 : list byte -> Q)
    (text_vertices : list byte -> list vertex) (data : list byte) :
  let '(d0, d1, d2) :=
    snd (compute_volume_and_bbox unpack_f32 text_vertices data) in
  0 <= d2 /\ d2 <= d1 /\ d1 <= d0.
Proof.
  assert (forall st,
            let '(d0, d1, d2) := snd (finish st) in
            0 <= d2 /\ d2 <= d1 /\ d1 <= d0) as Hfinish.
  { intros st. pose proof (finish_nonnegative_descending st) as H.
    destruct (finish st) as [v [[d0 d1] d2]]. simpl. tauto. }
  unfold compute_volume_and_bbox, text_branch, binary_branch,
    extract_ascii, extract_binary.
  destruct (is_ascii data).
  - apply Hfinish.
  - destruct (length data <? 84)%nat.
    + simpl. repeat split; lra.
    + apply Hfinish.
Qed.

(** ** What the loops read *)

Section Loops.

Lemma process_facets_cons f fs st :
  process_facets (f :: fs) st = process_facets fs (process_facet st f).
Proof. reflexivity. Qed.

(** The binary loop reads the first [max (num_triangles - count) 1]
    facets. *)
Lemma binary_loop_reads n fs :
  forall st count,
    binary_loop n fs st count
    = process_facets (firstn (Z.to_nat (Z.max (n - count) 1)) fs) st.
Proof.
  induction fs as [| [[v1 v2] v3] fs IH]; intros st count.
  - rewrite List.firstn_nil. reflexivity.
  - simpl binary_loop.
    destruct (Z.leb_spec n (count + 1)) as [Hle | Hgt].
    + replace (Z.to_nat (Z.max (n - count) 1)) with 1%nat by lia.
      reflexivity.
    + rewrite IH.
      replace (Z.to_nat (Z.max (n - count) 1))
        with (S (Z.to_nat (Z.max (n - (count + 1)) 1))) by lia.
      reflexivity.
Qed.

(** The text loop over the vertices of whole facets, then [tail]. *)
Lemma ascii_loop_facets fs :
  forall st tail,
    ascii_loop (vertices_of fs ++ tail) st []
    = ascii_loop tail (process_facets fs st) [].
Proof.
  induction fs as [| [[v1 v2] v3] fs IH]; intros st tail.
  - reflexivity.
  - simpl. rewrite IH. reflexivity.
Qed.

Lemma ascii_loop_whole_facets fs st :
  ascii_loop (vertices_of fs) st [] = process_facets fs st.
Proof.
  rewrite <- (List.app_nil_r (vertices_of fs)).
  rewrite ascii_loop_facets. reflexivity.
Qed.

(** The total after some facets depends on the state through its total
    only. *)
Lemma process_facets_total fs :
  forall st st',
    total_volume_mm3 st = total_volume_mm3 st' ->
    total_volume_mm3 (process_facets fs st)
    = total_volume_mm3 (process_facets fs st').
Proof.
  induction fs as [| [[v1 v2] v3] fs IH]; intros st st' H.
  - exact H.
  - rewrite !process_facets_cons. apply IH. simpl. rewrite H. reflexivity.
Qed.

(** The text loop with a pending group of at most two vertices. *)
Lemma ascii_loop_total vs :
  forall st pend,
    (length pend <= 2)%nat ->
    total_volume_mm3 (ascii_loop vs st pend)
    = total_volume_mm3
        (process_facets (facets_of_vertices (pend ++ vs)) st).
Proof.
  induction vs as [| v vs IH]; intros st pend Hlen.
  - destruct pend as [| p1 [| p2 [| p3 pend]]]; simpl in *;
      try reflexivity; lia.
  - destruct pend as [| p1 [| p2 [| p3 pend]]]; simpl in Hlen; try lia.
    + simpl ascii_loop. rewrite (IH _ [v]) by (simpl; lia).
      apply process_facets_total. reflexivity.
    + simpl ascii_loop. rewrite (IH _ [p1; v]) by (simpl; lia).
      apply process_facets_total. reflexivity.
    + simpl ascii_loop. rewrite (IH _ []) by (simpl; lia).
      simpl app. simpl facets_of_vertices. rewrite process_facets_cons.
      apply process_facets_total. reflexivity.
Qed.

Lemma facets_of_whole_vertices fs tail :
  (length tail < 3)%nat -> facets_of_vertices (vertices_of fs ++ tail) = fs.
Proof.
  intros Hlen. induction fs as [| [[v1 v2] v3] fs IH].
  - destruct tail as [| t1 [| t2 [| t3 tail]]]; simpl in *;
      try reflexivity; lia.
  - simpl. rewrite IH. reflexivity.
Qed.

(** The total is the running sum of the signed volumes, from the starting
    total. *)
Lemma process_facets_sum fs :
  forall st,
    total_volume_mm3 (process_facets fs st)
    = fold_left (fun total f => total + facet_volume f) fs
                (total_volume_mm3 st).
Proof.
  induction fs as [| [[v1 v2] v3] fs IH]; intros st.
  - reflexivity.
  - rewrite process_facets_cons, IH. reflexivity.
Qed.

Lemma extract_binary_reads n fs :
  extract_binary n fs = finish (process_facets (facets_read n fs) init_state).
Proof.
  unfold extract_binary, facets_read. rewrite binary_loop_reads.
  rewrite Z.sub_0_r. reflexivity.
Qed.

Lemma extract_ascii_total vs :
  fst (extract_ascii vs)
  = Qabs (total_volume_mm3
            (process_facets (facets_of_vertices vs) init_state)) / 1000.
Proof.
  unfold extract_ascii, finish. simpl fst.
  rewrite (ascii_loop_total vs init_state []) by (simpl; lia).
  reflexivity.
Qed.

Lemma extract_ascii_sum vs :
  fst (extract_ascii vs) = Qabs (facets_sum (facets_of_vertices vs)) / 1000.
Proof. rewrite extract_ascii_total, process_facets_sum. reflexivity. Qed.

Lemma extract_binary_sum n fs :
  fst (extract_binary n fs) = Qabs (facets_sum (facets_read n fs)) / 1000.
Proof.
  rewrite extract_binary_reads. unfold finish. simpl fst.
  rewrite process_facets_sum. reflexivity.
Qed.

End Loops.

(** X2. The binary branch reads the first [max(num_triangles, 1)] facets
    of the payload: all of them when the header declares at least as many
    as there are, and still one when it declares none. *)
Theorem binary_branch_reads_declared_count (num_triangles : Z)
    (fs : list facet) :
  extract_binary num_triangles fs
  = finish (process_facets (facets_read num_triangles fs) init_state) /\
  (length (facets_read num_triangles fs)
   = Nat.min (Z.to_nat (Z.max num_triangles 1)) (length fs)) /\
  ((Z.of_nat (length fs) <= num_triangles)%Z ->
   facets_read num_triangles fs = fs) /\
  ((num_triangles <= 1)%Z -> facets_read num_triangles fs = firstn 1 fs).
Proof.
  split; [apply extract_binary_reads |]. unfold facets_read.
  split; [apply List.length_firstn |]. split.
  - intros H. apply List.firstn_all2. lia.
  - intros H. replace (Z.to_nat (Z.max num_triangles 1)) with 1%nat by lia.
    reflexivity.
Qed.

Lemma binary_branch_reads_declared_count_witness :
  facets_read 0 cube_facets = firstn 1 cube_facets /\
  facets_read 12 cube_facets = cube_facets.
Proof.
  destruct (binary_branch_reads_declared_count 0 cube_facets)
    as (_ & _ & _ & Hone).
  destruct (binary_branch_reads_declared_count 12 cube_facets)
    as (_ & _ & Hall & _).
  split; [apply Hone; lia | apply Hall; simpl; lia].
Defined.

(** X3. The two formats agree: the binary branch returns what the text
    branch returns on the vertices of the facets it reads. *)
Theorem binary_and_text_agree (num_triangles : Z) (fs : list facet) :
  extract_binary num_triangles fs
  = extract_ascii (vertices_of (facets_read num_triangles fs)).
Proof.
  rewrite extract_binary_reads. unfold extract_ascii.
  rewrite ascii_loop_whole_facets. reflexivity.
Qed.

(** X4. The volume is the absolute value of the running sum of the signed
    volumes, divided by 1000: the volumes are added one after the other,
    from 0, in the order of the file; over the consecutive triples of the
    vertex stream in the text branch, where one or two vertices left at
    the end count for nothing, and over the facets read in the binary
    branch. *)
Theorem volume_is_absolute_sum (vs : list vertex) (num_triangles : Z)
    (fs : list facet) :
  fst (extract_ascii vs) = Qabs (facets_sum (facets_of_vertices vs)) / 1000 /\
  fst (extract_binary num_triangles fs)
  = Qabs (facets_sum (facets_read num_triangles fs)) / 1000 /\
  (forall tail,
     (length tail < 3)%nat ->
     facets_of_vertices (vertices_of fs ++ tail) = fs /\
     fst (extract_ascii (vertices_of fs ++ tail))
     = fst (extract_ascii (vertices_of fs))).
Proof.
  split; [apply extract_ascii_sum |]. split; [apply extract_binary_sum |].
  intros tail Hlen.
  pose proof (facets_of_whole_vertices fs tail Hlen) as Hfs.
  split; [exact Hfs |].
  pose proof (facets_of_whole_vertices fs [] ltac:(simpl; lia)) as Hnil.
  rewrite List.app_nil_r in Hnil.
  rewrite !extract_ascii_total, Hfs, Hnil. reflexivity.
Qed.

(** The running sum over the cube is its volume in cubic millimetres. *)
Example cube_running_sum :
  facets_sum cube_facets == 1000 /\
  facets_sum (facets_read 12 cube_facets) = facets_sum cube_facets.
Proof. split; reflexivity. Qed.

(** ** The bounding box *)

Section BoundingBox.





Lemma see_vertex_bbox st v :
  bbox (see_vertex st v) = update_bounds (bbox st) v.
Proof. reflexivity. Qed.







End BoundingBox.




(** ** The records of a binary payload *)

Section BinaryRecords.

Variable unpack_f32 : list byte -> Q.

Lemma slice_after a b i j :
  length a = i -> slice i j (a ++ b) = slice 0 (j - i) b.
Proof.
  intros <-. unfold slice.
  rewrite List.skipn_app, List.skipn_all, Nat.sub_diag, Nat.sub_0_r.
  reflexivity.
Qed.

Lemma slice_prefix a b j : length a = j -> slice 0 j (a ++ b) = a.
Proof.
  intros <-. unfold slice. rewrite Nat.sub_0_r.
  change (skipn 0 (a ++ b)) with (a ++ b).
  rewrite List.firstn_app, Nat.sub_diag, List.firstn_all. simpl.
  apply List.app_nil_r.
Qed.

Lemma chunk_offsets_add n :
  chunk_offsets (facet_size + n)
  = 0%nat :: map (fun i => (facet_size + i)%nat) (chunk_offsets n).
Proof.
  unfold chunk_offsets.
  replace (facet_size + n + (facet_size - 1))%nat
    with (1 * facet_size + (n + (facet_size - 1)))%nat by lia.
  rewrite Nat.div_add_l by (unfold facet_size; lia).
  change (1 + ?k)%nat with (S k).
  rewrite <- cons_seq, <- seq_shift. simpl map.
  rewrite !List.map_map. reflexivity.
Qed.

Lemma facets_at_shift chunk rest offsets :
  length chunk = facet_size ->
  facets_at unpack_f32 (map (fun i => (facet_size + i)%nat) offsets)
            (chunk ++ rest)
  = facets_at unpack_f32 offsets rest.
Proof.
  intros Hlen. induction offsets as [| i offsets IH]; [reflexivity |].
  cbn [map facets_at].
  assert (slice (facet_size + i) (facet_size + i + facet_size) (chunk ++ rest)
          = slice i (i + facet_size) rest) as ->.
  { unfold slice.
    rewrite List.skipn_app, List.skipn_all2 by lia.
    rewrite Hlen. simpl app.
    assert (forall a b c d (l : list byte),
              a = b -> c = d -> firstn a (skipn c l) = firstn b (skipn d l))
      as Hsame by (intros; subst; reflexivity).
    apply Hsame; lia. }
  rewrite IH. reflexivity.
Qed.

(** A whole record at the head of the payload yields one facet. *)
Lemma parse_binary_facets_chunk chunk rest :
  length chunk = facet_size ->
  parse_binary_facets unpack_f32 (chunk ++ rest)
  = (unpack_3f unpack_f32 (slice 12 24 chunk),
     unpack_3f unpack_f32 (slice 24 36 chunk),
     unpack_3f unpack_f32 (slice 36 48 chunk))
    :: parse_binary_facets unpack_f32 rest.
Proof.
  intros Hlen. unfold parse_binary_facets.
  rewrite List.length_app, Hlen, chunk_offsets_add.
  cbn [facets_at].
  rewrite (slice_prefix chunk rest (0 + facet_size)) by exact Hlen.
  rewrite Hlen, Nat.ltb_irrefl.
  rewrite (facets_at_shift chunk rest _ Hlen). reflexivity.
Qed.

(** Fewer bytes than a record yield no facet. *)
Lemma parse_binary_facets_short data :
  (length data < facet_size)%nat -> parse_binary_facets unpack_f32 data = [].
Proof.
  intros Hlen. unfold parse_binary_facets, chunk_offsets.
  destruct ((length data + (facet_size - 1)) / facet_size)%nat as [| k];
    [reflexivity |].
  cbn [seq map facets_at].
  assert ((length (slice (0 * facet_size) (0 * facet_size + facet_size) data)
           <? facet_size)%nat = true) as ->; [| reflexivity].
  apply Nat.ltb_lt. unfold slice. rewrite List.length_firstn.
  change (skipn (0 * facet_size) data) with data. lia.
Qed.

Lemma parse_binary_facets_length data :
  length (parse_binary_facets unpack_f32 data)
  = (length data / facet_size)%nat.
Proof.
  remember (length data) as n eqn:Hn. revert data Hn.
  induction n as [n IH] using lt_wf_ind. intros data Hn.
  destruct (Nat.lt_ge_cases n facet_size) as [Hlt | Hge].
  - rewrite parse_binary_facets_short by lia.
    rewrite Nat.div_small by exact Hlt. reflexivity.
  - rewrite <- (List.firstn_skipn facet_size data).
    assert (length (firstn facet_size data) = facet_size) as Hchunk
      by (rewrite List.length_firstn; lia).
    rewrite (parse_binary_facets_chunk _ _ Hchunk). simpl length.
    rewrite (IH (n - facet_size)%nat);
      [| unfold facet_size in *; lia | rewrite List.length_skipn; lia].
    replace n with (1 * facet_size + (n - facet_size))%nat at 2 by lia.
    rewrite Nat.div_add_l by (unfold facet_size; lia). reflexivity.
Qed.

(** Whole records followed by less than a record. *)
Lemma parse_binary_facets_tail k :
  forall records tail,
    length records = (k * facet_size)%nat ->
    (length tail < facet_size)%nat ->
    parse_binary_facets unpack_f32 (records ++ tail)
    = parse_binary_facets unpack_f32 records.
Proof.
  induction k as [| k IH]; intros records tail Hlen Htail.
  - destruct records; [| discriminate]. simpl app.
    rewrite parse_binary_facets_short by exact Htail.
    symmetry. apply parse_binary_facets_short. unfold facet_size. simpl. lia.
  - rewrite <- (List.firstn_skipn facet_size records).
    assert (length (firstn facet_size records) = facet_size) as Hchunk
      by (rewrite List.length_firstn; lia).
    rewrite <- List.app_assoc.
    rewrite !(parse_binary_facets_chunk _ _ Hchunk).
    rewrite IH; [reflexivity | | exact Htail].
    rewrite List.length_skipn. lia.
Qed.

End BinaryRecords.

(** X10. A record of 50 bytes at the head of the facet data yields one
    facet, made of its bytes 12-23, 24-35 and 36-47; the 12 bytes of the
    normal and the 2 attribute bytes are not looked at, and parsing goes
    on with the bytes after the record. *)
Theorem binary_record_layout (unpack_f32 : list byte -> Q)
    (normal v1 v2 v3 attr rest : list byte) :
  length normal = 12%nat -> length v1 = 12%nat -> length v2 = 12%nat ->
  length v3 = 12%nat -> length attr = 2%nat ->
  parse_binary_facets unpack_f32 (normal ++ v1 ++ v2 ++ v3 ++ attr ++ rest)
  = (unpack_3f unpack_f32 v1, unpack_3f unpack_f32 v2,
     unpack_3f unpack_f32 v3)
    :: parse_binary_facets unpack_f32 rest.
Proof.
  intros Hn H1 H2 H3 Ha.
  replace (normal ++ v1 ++ v2 ++ v3 ++ attr ++ rest)
    with ((normal ++ v1 ++ v2 ++ v3 ++ attr) ++ rest)
    by (rewrite <- !List.app_assoc; reflexivity).
  rewrite parse_binary_facets_chunk
    by (rewrite !List.length_app, Hn, H1, H2, H3, Ha; reflexivity).
  f_equal. f_equal; [f_equal |]; f_equal.
  - rewrite (slice_after normal _ 12 24 Hn).
    apply (slice_prefix v1 _ _ H1).
  - replace (normal ++ v1 ++ v2 ++ v3 ++ attr)
      with ((normal ++ v1) ++ v2 ++ v3 ++ attr)
      by (rewrite <- !List.app_assoc; reflexivity).
    rewrite (slice_after (normal ++ v1) _ 24 36)
      by (rewrite List.length_app, Hn, H1; reflexivity).
    apply (slice_prefix v2 _ _ H2).
  - replace (normal ++ v1 ++ v2 ++ v3 ++ attr)
      with ((normal ++ v1 ++ v2) ++ v3 ++ attr)
      by (rewrite <- !List.app_assoc; reflexivity).
    rewrite (slice_after (normal ++ v1 ++ v2) _ 36 48)
      by (rewrite !List.length_app, Hn, H1, H2; reflexivity).
    apply (slice_prefix v3 _ _ H3).
Qed.

Lemma binary_record_layout_witness :
  parse_binary_facets (fun bs => inject_Z (unpack_u32_le bs))
    (List.repeat x00 12
     ++ List.repeat x01 12 ++ List.repeat x02 12 ++ List.repeat x03 12
     ++ List.repeat xff 2 ++ List.repeat x2a 7)
  = [(unpack_3f (fun bs => inject_Z (unpack_u32_le bs)) (List.repeat x01 12),
      unpack_3f (fun bs => inject_Z (unpack_u32_le bs)) (List.repeat x02 12),
      unpack_3f (fun bs => inject_Z (unpack_u32_le bs)) (List.repeat x03 12))].
Proof.
  rewrite (binary_record_layout (fun bs => inject_Z (unpack_u32_le bs))
             (List.repeat x00 12) (List.repeat x01 12) (List.repeat x02 12)
             (List.repeat x03 12) (List.repeat xff 2) (List.repeat x2a 7)
             eq_refl eq_refl eq_refl eq_refl eq_refl).
  reflexivity.
Defined.

(** X11. The facet data yield one facet for every whole 50 bytes: bytes
    left after the last whole record, fewer than 50, are dropped without
    an error. *)
Theorem binary_facet_count_and_truncation (unpack_f32 : list byte -> Q)
    (data tail : list byte) :
  length (parse_binary_facets unpack_f32 data) = (length data / 50)%nat /\
  ((length data mod 50 = 0)%nat -> (length tail < 50)%nat ->
   parse_binary_facets unpack_f32 (data ++ tail)
   = parse_binary_facets unpack_f32 data).
Proof.
  split; [apply parse_binary_facets_length |].
  intros Hmod Htail.
  apply (parse_binary_facets_tail unpack_f32 (length data / 50));
    [| exact Htail].
  pose proof (Nat.div_mod_eq (length data) 50) as H.
  unfold facet_size. lia.
Qed.

Lemma binary_facet_count_and_truncation_witness :
  parse_binary_facets (fun _ => 1) (List.repeat x00 100 ++ List.repeat x01 49)
  = parse_binary_facets (fun _ => 1) (List.repeat x00 100).
Proof.
  apply (proj2 (binary_facet_count_and_truncation (fun _ => 1)
                  (List.repeat x00 100) (List.repeat x01 49))).
  - reflexivity.
  - simpl. lia.
Defined.

(** * Further properties of the quote engine *)

(** ** Machine time on the dimension path *)

(** X12. When a largest dimension is given and the quantities fit a
    float, the machine cost and the print time depend on the material and
    on that dimension only: not on the volume, the quantity, the type of
    piece or any other argument; and the call fails for one choice of them
    exactly when it fails for another. *)
Theorem dimension_path_ignores_volume_and_quantity (self : QuoteEngine.t)
    (m : string) (l : Q) (v v' : Q) (tp tp' ty ty' : string) (q q' : Z)
    (sh sh' : string) (ap ap' : bool) :
  quantity_fits q -> quantity_fits q' ->
  match compute_quote self v m tp ty q sh ap (Some l),
        compute_quote self v' m tp' ty' q' sh' ap' (Some l) with
  | Ok b, Ok b' =>
      machine_cost b = machine_cost b' /\
      print_time_minutes b = print_time_minutes b'
  | Raise e, Raise e' => e = e'
  | _, _ => False
  end.
Proof.
  intros Hfit Hfit'.
  destruct (materials self !! m) as [mat |] eqn:Hmat.
  2:{ unfold compute_quote. rewrite Hmat. reflexivity. }
  destruct (known_material_outcome self v m tp ty q sh ap (Some l) mat Hmat)
    as [(h1 & b1 & Hret1 & _ & Hu1 & Ht1 & Hf1)
       | [(Hraise1 & _ & Hzero1) | (_ & Hover1)]];
    [| | contradiction];
  destruct (known_material_outcome self v' m tp' ty' q' sh' ap' (Some l) mat
              Hmat)
    as [(h2 & b2 & Hret2 & _ & Hu2 & Ht2 & Hf2)
       | [(Hraise2 & _ & Hzero2) | (_ & Hover2)]];
    try contradiction.
  - rewrite Hret1, Hret2.
    assert (h1 = h2) as <-.
    { unfold machine_time in Ht1, Ht2. rewrite Ht1 in Ht2. congruence. }
    unfold quote_fields in Hf1, Hf2.
    destruct Hf1 as (_ & _ & C1 & _ & _ & _ & _ & _ & _ & _ & _ & _ & _ & _
                     & _ & _ & T1).
    destruct Hf2 as (_ & _ & C2 & _ & _ & _ & _ & _ & _ & _ & _ & _ & _ & _
                     & _ & _ & T2).
    split; congruence.
  - exfalso. apply (zero_speed_not_usable self m _ Hzero2 Hu1).
  - exfalso. apply (zero_speed_not_usable self m _ Hzero1 Hu2).
  - rewrite Hraise1, Hraise2. reflexivity.
Qed.

Lemma dimension_path_ignores_volume_and_quantity_witness :
  exists b b',
    compute_quote scenario_engine 10 "Resin" "Standard" "Fragile" 2
                  "retrait" false (Some 120) = Ok b /\
    compute_quote scenario_engine 75 "Resin" "Bespoke" "Sturdy" 40
                  "livraison" true (Some 120) = Ok b' /\
    machine_cost b = machine_cost b' /\
    print_time_minutes b = print_time_minutes b'.
Proof.
  pose proof (dimension_path_ignores_volume_and_quantity scenario_engine
                "Resin" 120 10 75 "Standard" "Bespoke" "Fragile" "Sturdy"
                2 40 "retrait" "livraison" false true
                ltac:(vm_compute; reflexivity) ltac:(vm_compute; reflexivity))
    as H.
  destruct (compute_quote scenario_engine 10 "Resin" "Standard" "Fragile" 2
                          "retrait" false (Some 120)) as [b | e] eqn:H1;
    [| vm_compute in H1; discriminate H1].
  destruct (compute_quote scenario_engine 75 "Resin" "Bespoke" "Sturdy" 40
                          "livraison" true (Some 120)) as [b' | e'] eqn:H2;
    [| vm_compute in H2; discriminate H2].
  exists b, b'. split; [reflexivity |]. split; [reflexivity | exact H].
Defined.

(** ** Tier tables *)

Section TierScan.

Lemma tier_scan_break pre t f post v :
  v < t ->
  forall acc, tier_scan (pre ++ (t, f) :: post) v acc = tier_scan pre v acc.
Proof.
  intros Hv. induction pre as [| [t0 f0] pre IH]; intros acc; simpl.
  - destruct (Qle_bool t v) eqn:E; [| reflexivity].
    apply Qle_bool_iff in E. lra.
  - destruct (Qle_bool t0 v); [apply IH | reflexivity].
Qed.



Lemma insert_by_threshold_perm x l :
  Permutation (x :: l) (Loading.insert_by_threshold x l).
Proof.
  induction l as [| y l IH]; simpl.
  - reflexivity.
  - destruct (Qle_bool (fst x) (fst y)); [reflexivity |].
    rewrite perm_swap. apply perm_skip, IH.
Qed.

Lemma insert_by_threshold_sorted x l :
  sorted_ascending l -> sorted_ascending (Loading.insert_by_threshold x l).
Proof.
  unfold sorted_ascending. intros Hs.
  induction l as [| y l IH]; simpl.
  - repeat constructor.
  - inversion Hs as [| ? ? Hl Hhd]; subst.
    destruct (Qle_bool (fst x) (fst y)) eqn:E.
    + apply Qle_bool_iff in E. constructor; [exact Hs |].
      constructor. exact E.
    + apply Qle_bool_false in E. constructor; [apply IH, Hl |].
      destruct l as [| z l]; simpl.
      * constructor. unfold by_threshold. lra.
      * destruct (Qle_bool (fst x) (fst z)); constructor.
        -- unfold by_threshold. lra.
        -- inversion Hhd; assumption.
Qed.

Lemma sort_by_threshold_sorted table :
  sorted_ascending (Loading.sort_by_threshold table).
Proof.
  induction table as [| x table IH]; simpl.
  - constructor.
  - apply insert_by_threshold_sorted, IH.
Qed.

Lemma sort_by_threshold_perm table :
  Permutation table (Loading.sort_by_threshold table).
Proof.
  induction table as [| x table IH]; simpl.
  - reflexivity.
  - rewrite <- insert_by_threshold_perm. apply perm_skip, IH.
Qed.

Lemma sort_by_threshold_sorted_id table :
  sorted_ascending table -> Loading.sort_by_threshold table = table.
Proof.
  unfold sorted_ascending. induction 1 as [| x table Hs IH Hhd]; simpl.
  - reflexivity.
  - rewrite IH. destruct Hhd as [| y table Hxy]; [reflexivity |].
    simpl. apply Qle_bool_iff in Hxy. rewrite Hxy. reflexivity.
Qed.

End TierScan.

(** X13. A lookup never looks past the first threshold above the volume:
    the tiers that follow it in the table, whatever their thresholds, play
    no part in the result. *)
Theorem lookup_stops_at_first_higher_threshold (self : QuoteEngine.t)
    (pre post : list (Q * Q)) (t f v : Q) :
  v < t ->
  (markup_table self = pre ++ (t, f) :: post ->
   _get_markup_factor self v = tier_scan pre v 1) /\
  (packaging_table self = pre ++ (t, f) :: post ->
   _get_packaging_cost self v = tier_scan pre v 0).
Proof.
  intros Hv. unfold _get_markup_factor, _get_packaging_cost.
  split; intros ->; apply tier_scan_break; exact Hv.
Qed.

(** In the table as the workbook lists it, the tier at 0 ml is hidden
    behind the tier at 50 ml: a volume of 20 ml gets the default factor 1
    of the lookup, not through the tier (0, 1), and 60 ml gets the factor
    of the last tier, 1. *)
Lemma lookup_stops_at_first_higher_threshold_witness :
  _get_markup_factor loaded_engine 20 = tier_scan [] 20 1 /\
  _get_markup_factor loaded_engine 60 = 1.
Proof.
  split.
  - apply (proj1 (lookup_stops_at_first_higher_threshold loaded_engine
                    [] [(0, 1)] 50 1.2 20 ltac:(lra))).
    reflexivity.
  - reflexivity.
Defined.

(** X14. The sort that ends the loading leaves each table in ascending
    order of threshold with the same tiers, leaves a table that is already
    in order as it is, and so makes both lookups the step functions of
    their tables. *)
Theorem loading_sorts_the_tables (self : QuoteEngine.t) :
  let loaded := Loading.sort_tables self in
  sorted_ascending (markup_table loaded) /\
  sorted_ascending (packaging_table loaded) /\
  Permutation (markup_table self) (markup_table loaded) /\
  Permutation (packaging_table self) (packaging_table loaded) /\
  (sorted_ascending (markup_table self) ->
   markup_table loaded = markup_table self) /\
  (sorted_ascending (packaging_table self) ->
   packaging_table loaded = packaging_table self) /\
  step_function_of (markup_table loaded) 1 (_get_markup_factor loaded) /\
  step_function_of (packaging_table loaded) 0 (_get_packaging_cost loaded).
Proof.
  simpl.
  split; [apply sort_by_threshold_sorted |].
  split; [apply sort_by_threshold_sorted |].
  split; [apply sort_by_threshold_perm |].
  split; [apply sort_by_threshold_perm |].
  split; [apply sort_by_threshold_sorted_id |].
  split; [apply sort_by_threshold_sorted_id |].
  split.
  - apply (tier_scan_step_function _ 1), sort_by_threshold_sorted.
  - apply (tier_scan_step_function _ 0), sort_by_threshold_sorted.
Qed.

Example loaded_tables_are_sorted :
  markup_table (Loading.sort_tables loaded_engine) = [(0, 1); (50, 1.2)] /\
  _get_markup_factor (Loading.sort_tables loaded_engine) 20 = 1 /\
  _get_markup_factor (Loading.sort_tables loaded_engine) 60 = 1.2.
Proof. repeat split; reflexivity. Qed.

(** ** The defaults of [__init__] *)

Section Defaults.

Variable getenv : string -> option string.
Variable py_float : string -> option Q.

Lemma setdefault_lookup k d (dict : gmap string Q) j :
  Loading.setdefault k d dict !! j
  = if decide (k = j)
    then match dict !! k with Some x => Some x | None => Some d end
    else dict !! j.
Proof.
  unfold Loading.setdefault.
  destruct (decide (k = j)) as [<- | Hne].
  - destruct (dict !! k) as [x |] eqn:E; [exact E |].
    apply lookup_insert_eq.
  - destruct (dict !! k); [reflexivity |].
    apply lookup_insert_ne. exact Hne.
Qed.

(** The loop that gives every material its defaults. *)
Lemma defaults_fold {A} ds dv (keys : gmap string A)
    (support speed : gmap string Q) :
  let r :=
    map_fold
      (fun mat_name (_ : A) (dicts : gmap string Q * gmap string Q) =>
         (Loading.setdefault mat_name ds (fst dicts),
          Loading.setdefault mat_name dv (snd dicts)))
      (support, speed) keys in
  forall k,
    fst r !! k = defaulted ds keys support k /\
    snd r !! k = defaulted dv keys speed k.
Proof.
  apply (map_fold_weak_ind
           (fun (r : gmap string Q * gmap string Q) (m : gmap string A) =>
              forall k,
                fst r !! k = defaulted ds m support k /\
                snd r !! k = defaulted dv m speed k)).
  - intros k. unfold defaulted. rewrite lookup_empty. simpl.
    split; [destruct (support !! k) | destruct (speed !! k)]; reflexivity.
  - intros i x m r Hi IH k. simpl.
    rewrite !setdefault_lookup. unfold defaulted in *.
    destruct (decide (i = k)) as [<- | Hne].
    + destruct (IH i) as [Hs Hv]. rewrite Hi in Hs, Hv.
      rewrite Hs, Hv, lookup_insert_eq.
      split; [destruct (support !! i) | destruct (speed !! i)]; reflexivity.
    + rewrite (lookup_insert_ne m i k x Hne). apply IH.
Qed.

Lemma apply_env_defaults_fields (self : QuoteEngine.t) :
  let e := Loading.apply_env_defaults getenv py_float self in
  materials e = materials self /\
  type_pieces e = type_pieces self /\
  typologies e = typologies self /\
  time_factor e = env_time_factor getenv py_float /\
  forall k,
    material_support_percent e !! k
    = defaulted (env_default_support getenv py_float) (materials self)
        (material_support_percent self) k /\
    material_print_speed e !! k
    = defaulted (env_default_speed getenv py_float) (materials self)
        (material_print_speed self) k.
Proof.
  unfold Loading.apply_env_defaults.
  pose proof (defaults_fold (env_default_support getenv py_float)
                (env_default_speed getenv py_float) (materials self)
                (material_support_percent self) (material_print_speed self))
    as H.
  cbv zeta in H. unfold env_default_support, env_default_speed in H.
  destruct (map_fold _ _ (materials self)) as [support speed].
  simpl. repeat split; apply H.
Qed.

End Defaults.

(** X15. After [__init__], a material has as support percentage and print
    speed the value stored for it before, and otherwise the default of the
    environment; a name that is not a material gets no default; the time
    factor is the one of the environment; the catalogue is unchanged.  So
    every material of the engine has a stored print speed. *)
Theorem init_gives_every_material_its_defaults
    (getenv : string -> option string) (py_float : string -> option Q)
    (self : QuoteEngine.t) (k : string) :
  let e := Loading.apply_env_defaults getenv py_float self in
  materials e = materials self /\
  time_factor e = env_time_factor getenv py_float /\
  material_support_percent e !! k
  = defaulted (env_default_support getenv py_float) (materials self)
      (material_support_percent self) k /\
  material_print_speed e !! k
  = defaulted (env_default_speed getenv py_float) (materials self)
      (material_print_speed self) k /\
  (is_Some (materials e !! k) -> is_Some (material_print_speed e !! k)).
Proof.
  destruct (apply_env_defaults_fields getenv py_float self)
    as (Hm & _ & _ & Ht & Hd).
  cbv zeta. destruct (Hd k) as [Hs Hv].
  split; [exact Hm |]. split; [exact Ht |]. split; [exact Hs |].
  split; [exact Hv |].
  rewrite Hv, Hm. unfold defaulted. intros [mat ->].
  destruct (material_print_speed self !! k); eexists; reflexivity.
Qed.

Example init_with_an_empty_environment :
  let e := Loading.apply_env_defaults empty_env float_of_default
             loaded_engine in
  material_print_speed e !! "Resin"%string = Some 10 /\
  material_support_percent e !! "Resin"%string = Some 0 /\
  material_print_speed e !! "Nylon"%string = None /\
  time_factor e = 1.
Proof. vm_compute. repeat split; reflexivity. Qed.

(** X16. If a tenth of no stored print speed rounds to zero, nor a tenth
    of the default speed of the environment, a quote for a known material
    and a quantity that fits a float returns on the initialised engine,
    whatever the other arguments. *)
Theorem initialised_engine_quotes_known_materials
    (getenv : string -> option string) (py_float : string -> option Q)
    (self : QuoteEngine.t) (v : Q) (m tp ty : string) (q : Z) (sh : string)
    (ap : bool) (L : option Q) :
  (forall k s, material_print_speed self !! k = Some s ->
               rounds_to_zero (s / 10) = false) ->
  rounds_to_zero (env_default_speed getenv py_float / 10) = false ->
  is_Some (materials self !! m) ->
  quantity_fits q ->
  exists b,
    compute_quote (Loading.apply_env_defaults getenv py_float self)
                  v m tp ty q sh ap L = Ok b.
Proof.
  intros Hstored Hdefault [mat Hmat] Hfit.
  destruct (apply_env_defaults_fields getenv py_float self)
    as (Hm & _ & _ & _ & Hd).
  cbv zeta in Hm, Hd.
  set (e := Loading.apply_env_defaults getenv py_float self) in *.
  assert (materials e !! m = Some mat) as Hmat' by (rewrite Hm; exact Hmat).
  assert (speed_usable e m L) as Hu.
  { intros l s _ Hs. destruct (Hd m) as [_ Hv]. rewrite Hv in Hs.
    unfold defaulted in Hs. rewrite Hmat in Hs.
    destruct (material_print_speed self !! m) as [s0 |] eqn:E.
    - injection Hs as <-. apply (Hstored m s0 E).
    - injection Hs as <-. exact Hdefault. }
  destruct (compute_quote_returns e v m tp ty q sh ap L mat Hmat' Hfit Hu)
    as (hours & b & Hret & _).
  exists b. exact Hret.
Qed.

Lemma initialised_engine_quotes_known_materials_witness :
  exists b,
    compute_quote
      (Loading.apply_env_defaults empty_env float_of_default loaded_engine)
      10 "Resin" "Standard" "Fragile" 2 "retrait" false (Some 120) = Ok b.
Proof.
  apply (initialised_engine_quotes_known_materials empty_env
           float_of_default loaded_engine).
  - intros k s H. simpl in H. rewrite lookup_empty in H. discriminate H.
  - vm_compute. reflexivity.
  - eexists. reflexivity.
  - vm_compute. reflexivity.
Defined.

(** X17. With a default speed in the environment that is zero, or so
    small that a tenth of it rounds to zero, and no speed read from the
    workbook, every quote that gives a largest dimension for a known
    material fails on the initialised engine: with [ZeroDivisionError],
    or with [OverflowError] when the quantity does not fit a float. *)
Theorem zero_default_speed_fails_every_dimension_quote
    (getenv : string -> option string) (py_float : string -> option Q)
    (self : QuoteEngine.t) (v : Q) (m tp ty : string) (q : Z) (sh : string)
    (ap : bool) (l : Q) :
  material_print_speed self !! m = None ->
  rounds_to_zero (env_default_speed getenv py_float / 10) = true ->
  is_Some (materials self !! m) ->
  (quantity_fits q ->
   compute_quote (Loading.apply_env_defaults getenv py_float self)
                 v m tp ty q sh ap (Some l) = Raise ZeroDivisionError) /\
  (~ quantity_fits q ->
   compute_quote (Loading.apply_env_defaults getenv py_float self)
                 v m tp ty q sh ap (Some l) = Raise OverflowError).
Proof.
  intros Hnone Hzero [mat Hmat].
  destruct (apply_env_defaults_fields getenv py_float self)
    as (Hm & _ & _ & _ & Hd).
  cbv zeta in Hm, Hd.
  set (e := Loading.apply_env_defaults getenv py_float self) in *.
  assert (materials e !! m = Some mat) as Hmat' by (rewrite Hm; exact Hmat).
  assert (material_print_speed e !! m
          = Some (env_default_speed getenv py_float)) as Hspeed.
  { destruct (Hd m) as [_ ->]. unfold defaulted. rewrite Hnone, Hmat.
    reflexivity. }
  destruct (known_material_outcome e v m tp ty q sh ap (Some l) mat Hmat')
    as [(hours & b & _ & _ & _ & Htime & _)
       | [(Hraise & Hfit & _) | (Hraise & Hover)]].
  - rewrite (machine_time_zero_speed e m l _ _ _ Hspeed Hzero) in Htime.
    discriminate.
  - split; [intros _; exact Hraise | intros Hover; contradiction].
  - split; [intros Hfit; contradiction | intros _; exact Hraise].
Qed.

Lemma zero_default_speed_fails_every_dimension_quote_witness :
  compute_quote
    (Loading.apply_env_defaults zero_speed_env float_of_default loaded_engine)
    10 "Resin" "Standard" "Fragile" 2 "retrait" false (Some 120)
  = Raise ZeroDivisionError.
Proof.
  apply (zero_default_speed_fails_every_dimension_quote zero_speed_env
           float_of_default loaded_engine).
  - reflexivity.
  - vm_compute. reflexivity.
  - eexists. reflexivity.
  - vm_compute. reflexivity.
Defined.

(** * Properties of the command line *)

Section CommandLine.

Variable unpack_f32 : list byte -> Q.
Variable text_vertices : list byte -> list vertex.


End CommandLine.

(** X18. The command line always gives [compute_quote] a largest
    dimension, the first dimension of the box: [machine_time_per_ml], the
    rate of the volume-based estimate, has no effect on what it prints. *)
Theorem cli_ignores_machine_time_per_ml (unpack_f32 : list byte -> Q)
    (text_vertices : list byte -> list vertex) (self : QuoteEngine.t)
    (x : Q) (stl : list byte) (m tp ty : string) (q : Z) (sh : string) :
  Main.cli unpack_f32 text_vertices (with_machine_time_per_ml x self)
           stl m tp ty q sh
  = Main.cli unpack_f32 text_vertices self stl m tp ty q sh.
Proof.
  unfold Main.cli.
  destruct (compute_volume_and_bbox unpack_f32 text_vertices stl)
    as [volume dims].
  reflexivity.
Qed.



(** * Properties of the text parser *)

Section TextParser.

Variable str : Type.
Variable strip : str -> str.
Variable lower : str -> str.
Variable startswith : str -> str -> bool.
Variable split : str -> list str.
Variable py_float : str -> option Q.
Variable vertex_word : str.
Variable decode_splitlines : list byte -> list str.

Local Abbreviation parse :=
  (StlText.parse_ascii_vertices str strip lower startswith split py_float
     vertex_word).
Local Abbreviation yield :=
  (line_vertex str strip lower startswith split py_float vertex_word).

Lemma parse_cons line rest :
  parse (line :: rest)
  = match yield line with
    | Some v => v :: parse rest
    | None => parse rest
    end.
Proof.
  unfold line_vertex. simpl.
  destruct (startswith (lower (strip line)) vertex_word); reflexivity.
Qed.

Lemma parse_app lines1 lines2 :
  parse (lines1 ++ lines2) = parse lines1 ++ parse lines2.
Proof.
  induction lines1 as [| line lines1 IH]; [reflexivity |].
  rewrite <- List.app_comm_cons, !parse_cons, IH.
  destruct (yield line); reflexivity.
Qed.

Lemma parse_length lines : (length (parse lines) <= length lines)%nat.
Proof.
  induction lines as [| line lines IH]; [simpl; lia |].
  rewrite parse_cons. destruct (yield line); simpl; lia.
Qed.

Lemma parse_In lines v :
  In v (parse lines) <-> exists line, In line lines /\ yield line = Some v.
Proof.
  induction lines as [| line lines IH].
  - simpl. split; [intros [] | intros (l & [] & _)].
  - rewrite parse_cons. split.
    + destruct (yield line) as [w |] eqn:E.
      * intros [<- | H].
        -- exists line. split; [left; reflexivity | exact E].
        -- apply IH in H. destruct H as (l & Hl & Hv).
           exists l. split; [right; exact Hl | exact Hv].
      * intros H. apply IH in H. destruct H as (l & Hl & Hv).
        exists l. split; [right; exact Hl | exact Hv].
    + intros (l & [<- | Hl] & Hv).
      * rewrite Hv. left. reflexivity.
      * assert (In v (parse lines)) as H by (apply IH; exists l; auto).
        destruct (yield line); [right |]; exact H.
Qed.

Lemma parse_nothing lines :
  (forall line, In line lines -> yield line = None) -> parse lines = [].
Proof.
  intros H. destruct (parse lines) as [| v vs] eqn:E; [reflexivity |].
  assert (In v (parse lines)) as Hv by (rewrite E; left; reflexivity).
  apply parse_In in Hv. destruct Hv as (line & Hl & Hy).
  rewrite (H line Hl) in Hy. discriminate.
Qed.

(** X20. The text parser takes each line on its own: the vertices of a
    file are those of its first lines followed by those of the rest, so a
    line that yields nothing (not a vertex line, too few tokens, a number
    that cannot be read) is skipped and the lines after it are still read;
    a line yields at most one vertex; and the vertices found are exactly
    those of the vertex lines whose three numbers are read. *)
Theorem text_parser_reads_line_by_line (lines1 lines2 : list str)
    (v : vertex) :
  parse (lines1 ++ lines2) = parse lines1 ++ parse lines2 /\
  (length (parse lines1) <= length lines1)%nat /\
  (In v (parse lines1) <->
   exists line, In line lines1 /\ yield line = Some v) /\
  (forall line, yield line = None -> parse (line :: lines2) = parse lines2).
Proof.
  split; [apply parse_app |]. split; [apply parse_length |].
  split; [apply parse_In |].
  intros line H. rewrite parse_cons, H. reflexivity.
Qed.

(** X21. A vertex line needs four tokens: with fewer it yields nothing.
    The numbers are read from the second, third and fourth token; the
    first token and any token after the fourth do not matter. *)
Theorem vertex_line_tokens (parts : list str) (w a b c : str)
    (extra : list str) :
  ((length parts < 4)%nat -> StlText.vertex_of_parts str py_float parts = None)
  /\
  StlText.vertex_of_parts str py_float (w :: a :: b :: c :: extra)
  = match py_float a, py_float b, py_float c with
    | Some x, Some y, Some z => Some (x, y, z)
    | _, _, _ => None
    end.
Proof.
  split.
  - intros Hlen. unfold StlText.vertex_of_parts.
    destruct parts as [| p0 [| p1 [| p2 [| p3 parts]]]]; simpl in *;
      try reflexivity; try lia.
    + destruct (py_float p1); reflexivity.
    + destruct (py_float p1); [| reflexivity].
      destruct (py_float p2); reflexivity.
  - unfold StlText.vertex_of_parts. simpl.
    destruct (py_float a); [| reflexivity].
    destruct (py_float b); [| reflexivity].
    destruct (py_float c); reflexivity.
Qed.

(** X22. A text payload none of whose lines yields a vertex is not an
    error: its volume is 0 and its box is (0, 0, 0). *)
Theorem text_without_vertices_is_zero (unpack_f32 : list byte -> Q)
    (data : list byte) :
  is_ascii data = true ->
  (forall line, In line (decode_splitlines data) -> yield line = None) ->
  same_summary
    (compute_volume_and_bbox unpack_f32
       (StlText.ascii_vertices str strip lower startswith split py_float
          vertex_word decode_splitlines)
       data)
    (0, (0, 0, 0)).
Proof.
  intros Htext Hnone. unfold compute_volume_and_bbox, text_branch.
  rewrite Htext. unfold StlText.ascii_vertices.
  rewrite (parse_nothing _ Hnone). vm_compute. repeat split; reflexivity.
Qed.

End TextParser.

Lemma text_parser_reads_line_by_line_witness :
  StlText.parse_ascii_vertices string (fun s => s) (fun s => s)
    (fun s w => String.prefix w s) (fun s => [s; s; s; s])
    (fun _ => Some 1) "vertex"%string
    ["endloop"%string; "vertex 1 1 1"%string]
  = StlText.parse_ascii_vertices string (fun s => s) (fun s => s)
      (fun s w => String.prefix w s) (fun s => [s; s; s; s])
      (fun _ => Some 1) "vertex"%string ["vertex 1 1 1"%string].
Proof.
  apply (proj2 (proj2 (proj2
           (text_parser_reads_line_by_line string (fun s => s) (fun s => s)
              (fun s w => String.prefix w s) (fun s => [s; s; s; s])
              (fun _ => Some 1) "vertex"%string [] ["vertex 1 1 1"%string]
              (0, 0, 0))))).
  reflexivity.
Defined.

Lemma vertex_line_tokens_witness :
  StlText.vertex_of_parts string (fun _ => Some 1) ["vertex"%string] = None.
Proof.
  apply (proj1 (vertex_line_tokens string (fun _ => Some 1)
                  ["vertex"%string] "" "" "" "" [])).
  simpl. lia.
Defined.

Lemma text_without_vertices_is_zero_witness :
  same_summary
    (compute_volume_and_bbox (fun _ => 1)
       (StlText.ascii_vertices string (fun s => s) (fun s => s)
          (fun s w => String.prefix w s) (fun s => [s]) (fun _ => None)
          "vertex"%string
          (fun _ => ["solid cube"%string; "facet normal 0 0 1"%string]))
       mixed_case_payload)
    (0, (0, 0, 0)).
Proof.
  apply (text_without_vertices_is_zero string (fun s => s) (fun s => s)
           (fun s w => String.prefix w s) (fun s => [s]) (fun _ => None)
           "vertex"%string
           (fun _ => ["solid cube"%string; "facet normal 0 0 1"%string])
           (fun _ => 1) mixed_case_payload).
  - reflexivity.
  - intros line Hline. unfold line_vertex.
    destruct (String.prefix "vertex" line); reflexivity.
Defined.
